(** * Single-object tracking scripts: KCF.py and ALL.py

    A shallow embedding of the two scripts.  Each script is one [main]
    that talks to the vision library, the console and one output file;
    the embedding threads an explicit [World] (the output file on disk,
    the resources currently held, the chronological list of calls made)
    through a small state monad in which [sys.exit()] is an outcome.
    Everything the outside world answers (which constructors the
    installed library has, whether the source opens, the frames, the
    selected box, the tracker's verdicts, the keys, the interpreter's
    case tables beyond ASCII) is an input, [Env].

    Library calls are taken to return.  The two exceptions the scripts
    catch are modelled (AttributeError at a constructor lookup, IOError
    at [open]); the clock readings around [update] are replaced by the
    frame rate they yield, an input that is only displayed. *)

From Stdlib Require Import ZArith List String Ascii Bool Lia QArith.
From Stdlib Require Import DecimalString DecimalPos DecimalZ.
Import ListNotations.
Open Scope string_scope.
Open Scope Z_scope.

(** ** Python values used by the scripts *)

(** The line terminator written by ["...\n"]. *)
Definition nl : ascii := ascii_of_nat 10.
Definition newline : string := String nl EmptyString.

(** Strings are the UTF-8 bytes of Python's [str]: a byte below 128 is an
    ASCII character, and the characters beyond ASCII are the maximal
    runs of bytes from 128 on. *)
Definition is_ascii_char (c : ascii) : bool := Nat.ltb (nat_of_ascii c) 128.

Fixpoint is_ascii (s : string) : bool :=
  match s with
  | EmptyString => true
  | String c r => is_ascii_char c && is_ascii r
  end.

(** [str.upper()] maps character by character.  On ASCII it maps [a-z]
    to [A-Z] and nothing else: [upper_ascii], and [upper] for a string
    of ASCII characters. *)
Definition upper_ascii (c : ascii) : ascii :=
  let n := nat_of_ascii c in
  if (Nat.leb 97 n && Nat.leb n 122)%bool then ascii_of_nat (n - 32) else c.

Fixpoint upper (s : string) : string :=
  match s with
  | EmptyString => EmptyString
  | String c r => String (upper_ascii c) (upper r)
  end.

(** [str.upper()] on any string.  What the interpreter's case tables
    give on the characters beyond ASCII is not in the scripts: [table]
    stands for it, asked on each maximal run of such characters ([run]
    collects the current one); the ASCII characters in between are
    mapped by [upper_ascii]. *)
Definition flush (table : string -> string) (run : string) : string :=
  match run with
  | EmptyString => EmptyString
  | _ => table run
  end.

Fixpoint upper_runs (table : string -> string) (run s : string) : string :=
  match s with
  | EmptyString => flush table run
  | String c r =>
      if is_ascii_char c
      then flush table run ++ String (upper_ascii c) (upper_runs table EmptyString r)
      else upper_runs table (run ++ String c EmptyString) r
  end.

(** [str.isdigit()] on ASCII: non-empty, decimal digits only. *)
Definition digit_ascii (c : ascii) : bool :=
  let n := nat_of_ascii c in (Nat.leb 48 n && Nat.leb n 57)%bool.

Fixpoint all_digits (s : string) : bool :=
  match s with
  | EmptyString => true
  | String c r => digit_ascii c && all_digits r
  end.

Definition isdigit (s : string) : bool :=
  match s with
  | EmptyString => false
  | _ => all_digits s
  end.

(** [int(s)] for a string of decimal digits. *)
Fixpoint int_of_digits (acc : Z) (s : string) : Z :=
  match s with
  | EmptyString => acc
  | String c r => int_of_digits (10 * acc + (Z.of_nat (nat_of_ascii c) - 48)) r
  end.

(** [str(n)] / [f"{n}"] for a Python int. *)
Definition str (n : Z) : string := NilZero.string_of_int (Z.to_int n).

(** [int(x)] for a finite float [x]: truncation toward zero.  The floats
    the tracker hands back are taken as the rationals they denote. *)
Definition py_int (x : Q) : Z := Z.quot (Qnum x) (Zpos (Qden x)).

(** A box [(x, y, w, h)], indexed [bbox[0]] .. [bbox[3]] in the source. *)
Record Rect (A : Type) : Type := mkRect { b0 : A; b1 : A; b2 : A; b3 : A }.
Arguments mkRect {A} _ _ _ _.
Arguments b0 {A} _.
Arguments b1 {A} _.
Arguments b2 {A} _.
Arguments b3 {A} _.

(** ** The vision library as seen from the scripts *)

(** The constructor attributes of [cv2] the scripts look up. *)
Inductive Ctor : Type :=
| TrackerBoosting_create
| TrackerMIL_create
| TrackerKCF_create
| TrackerTLD_create
| TrackerMedianFlow_create
| TrackerMOSSE_create
| TrackerCSRT_create
| legacy_TrackerKCF_create.

(** A tracker handle: an opaque object, known only by the constructor
    that built it.  Python's [None] is [None]. *)
Definition Tracker : Type := Ctor.

(** What [int(VIDEO_PATH) if VIDEO_PATH.isdigit() else VIDEO_PATH] is. *)
Inductive Source : Type :=
| Camera (index : Z)
| File (path : string).

Definition video_source (VIDEO_PATH : string) : Source :=
  if isdigit VIDEO_PATH then Camera (int_of_digits 0 VIDEO_PATH)
  else File VIDEO_PATH.

(** One delivered frame, together with what the world answers while that
    frame is the current one: the tracker's [update] verdict and box, the
    frame rate measured around [update] (display only), and the key code
    [waitKey(1)] returns ([-1] when no key is down).  The verdict, rate
    and key of the first frame are never asked for. *)
Record Frame : Type := mkFrame {
  pixels : nat;
  update_ok : bool;
  update_box : Rect Q;
  fps : Q;
  key : Z
}.

(** The inputs of one run. *)
Record Env : Type := mkEnv {
  has_attr : Ctor -> bool;      (* false: the lookup raises AttributeError *)
  opens : bool;                 (* what video.isOpened() says *)
  frames : list Frame;          (* the frames video.read() delivers, in order *)
  roi : Rect Z;                 (* what cv2.selectROI returns *)
  writable : bool;              (* false: open(OUTPUT_TXT, "w") raises IOError *)
  upper_table : string -> string (* str.upper() on a run of non-ASCII characters *)
}.

(** [s.upper()] in the interpreter of the run. *)
Definition str_upper (env : Env) (s : string) : string :=
  upper_runs (upper_table env) EmptyString s.

(** Console texts.  The scripts print Chinese sentences; each constructor
    stands for one [print] of the source, with its interpolated values. *)
Inductive Message : Type :=
| MsgCreating (tracker_type : string)        (* ALL.py:31 *)
| MsgUnsupported (tracker_type : string)     (* ALL.py:51 *)
| MsgNeedContrib                             (* ALL.py:54 *)
| MsgOldSyntax                               (* ALL.py:55 *)
| MsgIndexOutOfRange                         (* ALL.py:64 *)
| MsgCannotOpen (video_path : string)        (* ALL.py:77, KCF.py:47 *)
| MsgCannotRead                              (* ALL.py:83, KCF.py:53 *)
| MsgUsing (tracker_name : string)           (* ALL.py:87 *)
| MsgSelectPrompt                            (* ALL.py:88, KCF.py:57 *)
| MsgNoRegion                                (* ALL.py:92, KCF.py:63 *)
| MsgCannotCreateOutput                      (* ALL.py:104, KCF.py:76 *)
| MsgSaved (output_txt : string)             (* ALL.py:159 *)
| MsgKcfUnavailable                          (* KCF.py:28 *)
| MsgKcfOnly (tracker_type : string)         (* KCF.py:32 *)
| MsgStart (output_txt : string)             (* KCF.py:74 *)
| MsgUserStop                                (* KCF.py:133 *)
| MsgReleased.                               (* KCF.py:140 *)

(** The calls a script makes, as they are recorded in order. *)
Inductive Call : Type :=
| Print (m : Message)
| Create (c : Ctor)
| VideoCapture (src : Source)
| Read
| SelectROI (window : string) (frame : nat)
| Init (t : Tracker) (frame : nat) (bbox : Rect Z)
| OpenW (path : string)
| Write (s : string)
| Update (t : Tracker) (frame : nat)
| Rectangle (p1 p2 : Z * Z)
| PutText (text : string) (org : Z * Z)
| ImShow (window : string) (frame : nat)
| WaitKey
| Release
| DestroyAllWindows
| Close.

(** ** The world and the monad *)

Record World : Type := mkWorld {
  disk : option string;   (* content of the file at OUTPUT_TXT; None: no such file *)
  video_open : bool;      (* an opened capture handle is held *)
  window_open : bool;     (* a display window exists *)
  file_open : bool;       (* f_out is open *)
  calls : list Call       (* every call so far, oldest first *)
}.

Definition log (c : Call) (w : World) : World :=
  mkWorld (disk w) (video_open w) (window_open w) (file_open w) (calls w ++ [c]).
Definition set_disk (d : option string) (w : World) : World :=
  mkWorld d (video_open w) (window_open w) (file_open w) (calls w).
Definition set_video (b : bool) (w : World) : World :=
  mkWorld (disk w) b (window_open w) (file_open w) (calls w).
Definition set_window (b : bool) (w : World) : World :=
  mkWorld (disk w) (video_open w) b (file_open w) (calls w).
Definition set_file (b : bool) (w : World) : World :=
  mkWorld (disk w) (video_open w) (window_open w) b (calls w).

(** How a computation ends: with a value, or in [sys.exit()]. *)
Inductive Outcome (A : Type) : Type :=
| Ret (a : A)
| SysExit.
Arguments Ret {A} a.
Arguments SysExit {A}.

Definition M (A : Type) : Type := World -> Outcome A * World.

Definition ret {A : Type} (a : A) : M A := fun w => (Ret a, w).

Definition bind {A B : Type} (m : M A) (k : A -> M B) : M B :=
  fun w =>
    match m w with
    | (Ret a, w') => k a w'
    | (SysExit, w') => (SysExit, w')
    end.

Definition sys_exit {A : Type} : M A := fun w => (SysExit, w).

Declare Scope script_scope.
Delimit Scope script_scope with script.
Notation "x <- m ;; k" := (bind m (fun x => k))
  (at level 100, m at next level, right associativity) : script_scope.
Notation "m ;; k" := (bind m (fun _ => k))
  (at level 100, right associativity) : script_scope.
Open Scope script_scope.

(** *** Primitive calls *)

Definition call (c : Call) : M unit := fun w => (Ret tt, log c w).

Definition print (m : Message) : M unit := call (Print m).

(** [cv2.VideoCapture(src)]: the handle is opened or not, as the world
    decides. *)
Definition cv2_VideoCapture (env : Env) (src : Source) : M unit :=
  fun w => (Ret tt, set_video (opens env) (log (VideoCapture src) w)).

Definition video_isOpened : M bool := fun w => (Ret (video_open w), w).

(** [video.read()] on the frames still to come: [(ok, frame)] and the
    frames left. *)
Definition video_read (pending : list Frame) : M (option Frame * list Frame) :=
  call Read ;;
  match pending with
  | [] => ret (None, [])
  | f :: rest => ret (Some f, rest)
  end.

(** [cv2.selectROI(window, frame, False)]: shows the window and blocks
    until the user confirms or cancels. *)
Definition cv2_selectROI (env : Env) (window : string) (frame : Frame) : M (Rect Z) :=
  fun w => (Ret (roi env), set_window true (log (SelectROI window (pixels frame)) w)).

Definition tracker_init (t : Tracker) (frame : Frame) (bbox : Rect Z) : M unit :=
  call (Init t (pixels frame) bbox).

Definition tracker_update (t : Tracker) (frame : Frame) : M (bool * Rect Q) :=
  call (Update t (pixels frame)) ;; ret (update_ok frame, update_box frame).

(** [open(path, "w")]: [true] with the file created or truncated, or
    [false] for IOError, the disk untouched. *)
Definition open_w (env : Env) (path : string) : M bool :=
  fun w =>
    if writable env
    then (Ret true, set_file true (set_disk (Some "") (log (OpenW path) w)))
    else (Ret false, log (OpenW path) w).

(** [f_out.write(s)]: [s] goes to the end of the file. *)
Definition f_write (s : string) : M unit :=
  fun w => (Ret tt, set_disk (option_map (fun c => c ++ s) (disk w)) (log (Write s) w)).

Definition cv2_imshow (window : string) (frame : Frame) : M unit :=
  fun w => (Ret tt, set_window true (log (ImShow window (pixels frame)) w)).

Definition cv2_waitKey (frame : Frame) : M Z :=
  call WaitKey ;; ret (key frame).

Definition video_release : M unit :=
  fun w => (Ret tt, set_video false (log Release w)).

Definition cv2_destroyAllWindows : M unit :=
  fun w => (Ret tt, set_window false (log DestroyAllWindows w)).

Definition f_close : M unit :=
  fun w => (Ret tt, set_file false (log Close w)).

(** The column header both scripts write. *)
Definition header : string := "Frame_ID, X, Y, W, H".

(** [f"{frame_id}, {x}, {y}, {w}, {h}"], without the newline. *)
Definition row (frame_id x y w h : Z) : string :=
  str frame_id ++ ", " ++ str x ++ ", " ++ str y ++ ", " ++ str w ++ ", " ++ str h.

(** [f"{frame_id}, -1, -1, -1, -1"], without the newline. *)
Definition sentinel (frame_id : Z) : string :=
  str frame_id ++ ", -1, -1, -1, -1".

(** [cv2.waitKey(1) & 0xFF == 27]. *)
Definition is_esc (k : Z) : bool := Z.land k 255 =? 27.

(** ** KCF.py *)

Module KCF.

Record Config : Type := mkConfig {
  VIDEO_PATH : string;
  OUTPUT_TXT : string;
  TRACKER_TYPE : string
}.

(** The constants as they stand in the file. *)
Definition config : Config := mkConfig "bear.mp4" "tracking_data.txt" "KCF".

Definition window : string := "KCF Tracker".

Definition create_tracker (env : Env) (tracker_type : string) : M (option Tracker) :=
  let tracker_type := str_upper env tracker_type in
  if String.eqb tracker_type "KCF" then
    if has_attr env TrackerKCF_create then
      call (Create TrackerKCF_create) ;;
      ret (Some TrackerKCF_create)
    else if has_attr env legacy_TrackerKCF_create then
      call (Create legacy_TrackerKCF_create) ;;
      ret (Some legacy_TrackerKCF_create)
    else
      print MsgKcfUnavailable ;;
      ret None
  else
    print (MsgKcfOnly tracker_type) ;;
    ret None.

(** The [while True] loop: [pending] are the frames not yet read. *)
Fixpoint loop (cfg : Config) (tracker : Tracker) (frame_id : Z)
    (pending : list Frame) : M unit :=
  call Read ;;
  match pending with
  | [] => ret tt
  | frame :: rest =>
      let frame_id := frame_id + 1 in
      r <- tracker_update tracker frame ;;
      let (ok, bbox) := r in
      (if ok then
         let x := py_int (b0 bbox) in
         let y := py_int (b1 bbox) in
         let w := py_int (b2 bbox) in
         let h := py_int (b3 bbox) in
         call (Rectangle (x, y) (x + w, y + h)) ;;
         call (PutText ("Coord: x=" ++ str x ++ ", y=" ++ str y ++ ", w=" ++ str w
                          ++ ", h=" ++ str h) (x, y - 10)) ;;
         f_write (row frame_id x y w h ++ newline)
       else
         call (PutText "Tracking failure detected" (100, 80)) ;;
         f_write (sentinel frame_id ++ newline)) ;;
      call (PutText ("Tracker: " ++ TRACKER_TYPE cfg) (20, 20)) ;;
      call (PutText ("FPS : " ++ str (py_int (fps frame))) (20, 50)) ;;
      cv2_imshow window frame ;;
      k <- cv2_waitKey frame ;;
      if is_esc k then print MsgUserStop
      else loop cfg tracker frame_id rest
  end.

Definition main (cfg : Config) (env : Env) : M unit :=
  tracker <- create_tracker env (TRACKER_TYPE cfg) ;;
  match tracker with
  | None => sys_exit
  | Some tracker =>
      cv2_VideoCapture env (video_source (VIDEO_PATH cfg)) ;;
      opened <- video_isOpened ;;
      if negb opened then
        print (MsgCannotOpen (VIDEO_PATH cfg)) ;; sys_exit
      else
        r <- video_read (frames env) ;;
        match r with
        | (None, _) => print MsgCannotRead ;; sys_exit
        | (Some frame, pending) =>
            print MsgSelectPrompt ;;
            bbox <- cv2_selectROI env window frame ;;
            if ((b2 bbox =? 0) || (b3 bbox =? 0))%bool then
              print MsgNoRegion ;; sys_exit
            else
              tracker_init tracker frame bbox ;;
              opened_out <- open_w env (OUTPUT_TXT cfg) ;;
              (if opened_out then
                 f_write (header ++ newline) ;;
                 print (MsgStart (OUTPUT_TXT cfg))
               else
                 print MsgCannotCreateOutput ;; sys_exit) ;;
              loop cfg tracker 1 pending ;;
              video_release ;;
              cv2_destroyAllWindows ;;
              f_close ;;
              print MsgReleased
        end
  end.

End KCF.

(** ** ALL.py *)

Module ALL.

Record Config : Type := mkConfig {
  VIDEO_PATH : string;
  OUTPUT_TXT : string;
  TRACKER_TYPES : list string;
  SELECTED_INDEX : Z
}.

(** The names the script lists, and the constants as they stand. *)
Definition names : list string :=
  ["BOOSTING"; "MIL"; "KCF"; "TLD"; "MEDIANFLOW"; "MOSSE"; "CSRT"].

Definition config : Config := mkConfig "bear.mp4" "tracking_result.txt" names 6.

Definition window : string := "Tracker".

(** One [return cv2.X_create()] under the function's [try]: a missing
    attribute lands in [except AttributeError]. *)
Definition try_create (env : Env) (c : Ctor) : M (option Tracker) :=
  if has_attr env c then
    call (Create c) ;;
    ret (Some c)
  else
    print MsgNeedContrib ;;
    print MsgOldSyntax ;;
    ret None.

Definition create_tracker_by_name (env : Env) (tracker_type : string) : M (option Tracker) :=
  let tracker_type := str_upper env tracker_type in
  print (MsgCreating tracker_type) ;;
  if String.eqb tracker_type "BOOSTING" then try_create env TrackerBoosting_create
  else if String.eqb tracker_type "MIL" then try_create env TrackerMIL_create
  else if String.eqb tracker_type "KCF" then try_create env TrackerKCF_create
  else if String.eqb tracker_type "TLD" then try_create env TrackerTLD_create
  else if String.eqb tracker_type "MEDIANFLOW" then try_create env TrackerMedianFlow_create
  else if String.eqb tracker_type "MOSSE" then try_create env TrackerMOSSE_create
  else if String.eqb tracker_type "CSRT" then try_create env TrackerCSRT_create
  else
    print (MsgUnsupported tracker_type) ;;
    ret None.

(** The [while True] loop.  The corner [p2] adds two floats before
    truncating; the sum is taken exactly (it only positions the drawn
    rectangle). *)
Fixpoint loop (tracker_name : string) (tracker : Tracker) (frame_id : Z)
    (pending : list Frame) : M unit :=
  call Read ;;
  match pending with
  | [] => ret tt
  | frame :: rest =>
      let frame_id := frame_id + 1 in
      r <- tracker_update tracker frame ;;
      let (ok, bbox) := r in
      (if ok then
         let p1 := (py_int (b0 bbox), py_int (b1 bbox)) in
         let p2 := (py_int (b0 bbox + b2 bbox)%Q, py_int (b1 bbox + b3 bbox)%Q) in
         let x := py_int (b0 bbox) in
         let y := py_int (b1 bbox) in
         let w := py_int (b2 bbox) in
         let h := py_int (b3 bbox) in
         call (Rectangle p1 p2) ;;
         call (PutText ("X:" ++ str x ++ " Y:" ++ str y ++ " W:" ++ str w
                          ++ " H:" ++ str h) (x, y - 10)) ;;
         f_write (row frame_id x y w h ++ newline)
       else
         call (PutText "Tracking failure detected" (100, 80)) ;;
         f_write (sentinel frame_id ++ newline)) ;;
      call (PutText (tracker_name ++ " Tracker") (20, 20)) ;;
      call (PutText ("FPS : " ++ str (py_int (fps frame))) (20, 50)) ;;
      cv2_imshow window frame ;;
      k <- cv2_waitKey frame ;;
      if is_esc k then ret tt
      else loop tracker_name tracker frame_id rest
  end.

Definition main (cfg : Config) (env : Env) : M unit :=
  tracker_name <-
    (if ((0 <=? SELECTED_INDEX cfg)
         && (SELECTED_INDEX cfg <? Z.of_nat (List.length (TRACKER_TYPES cfg))))%bool
     then ret (nth (Z.to_nat (SELECTED_INDEX cfg)) (TRACKER_TYPES cfg) "")
     else print MsgIndexOutOfRange ;; ret "KCF") ;;
  tracker <- create_tracker_by_name env tracker_name ;;
  match tracker with
  | None => sys_exit
  | Some tracker =>
      cv2_VideoCapture env (video_source (VIDEO_PATH cfg)) ;;
      opened <- video_isOpened ;;
      if negb opened then
        print (MsgCannotOpen (VIDEO_PATH cfg)) ;; sys_exit
      else
        r <- video_read (frames env) ;;
        match r with
        | (None, _) => print MsgCannotRead ;; sys_exit
        | (Some frame, pending) =>
            print (MsgUsing tracker_name) ;;
            print MsgSelectPrompt ;;
            bbox <- cv2_selectROI env window frame ;;
            if ((b2 bbox =? 0) || (b3 bbox =? 0))%bool then
              print MsgNoRegion ;; sys_exit
            else
              tracker_init tracker frame bbox ;;
              opened_out <- open_w env (OUTPUT_TXT cfg) ;;
              (if opened_out then
                 f_write ("Algorithm: " ++ tracker_name ++ newline) ;;
                 f_write (header ++ newline)
               else
                 print MsgCannotCreateOutput ;; sys_exit) ;;
              loop tracker_name tracker 1 pending ;;
              video_release ;;
              cv2_destroyAllWindows ;;
              f_close ;;
              print (MsgSaved (OUTPUT_TXT cfg))
        end
  end.

End ALL.

(** ** Observing a run *)

(** A process starts with nothing held and no call made; [d] is what is
    on disk at the output path. *)
Definition boot (d : option string) : World := mkWorld d false false false [].

(** The lines of a text file, terminators dropped. *)
Fixpoint lines (s : string) : list string :=
  match s with
  | EmptyString => []
  | String c r =>
      if Ascii.eqb c nl then EmptyString :: lines r
      else match lines r with
           | [] => [String c EmptyString]
           | l :: ls => String c l :: ls
           end
  end.

Definition exited {A : Type} (r : Outcome A * World) : bool :=
  match fst r with
  | SysExit => true
  | Ret _ => false
  end.

Definition is_capture (c : Call) : bool :=
  match c with VideoCapture _ => true | _ => false end.
Definition is_read (c : Call) : bool :=
  match c with Read => true | _ => false end.
Definition is_init (c : Call) : bool :=
  match c with Init _ _ _ => true | _ => false end.
Definition is_update (c : Call) : bool :=
  match c with Update _ _ => true | _ => false end.
Definition is_open (c : Call) : bool :=
  match c with OpenW _ => true | _ => false end.
Definition is_write (c : Call) : bool :=
  match c with Write _ => true | _ => false end.
Definition is_rectangle (c : Call) : bool :=
  match c with Rectangle _ _ => true | _ => false end.
Definition is_create (c : Call) : bool :=
  match c with Create _ => true | _ => false end.

(** Frame [i] of a test clip: the tracker answers [ok] with one and the
    same box, no key is pressed. *)
Definition still (ok : bool) (i : nat) : Frame :=
  mkFrame i ok (mkRect (21 # 2) (7 # 1) (40 # 1) (30 # 1))%Q (30 # 1)%Q (-1).

(** Case tables that know no cased letter beyond ASCII, and tables that
    know the long s (U+017F, bytes 197 191), whose upper case is [S]. *)
Definition uncased (run : string) : string := run.

Definition long_s : string := String (ascii_of_nat 197) (String (ascii_of_nat 191) EmptyString).

Definition long_s_table (run : string) : string :=
  if String.eqb run long_s then "S"
  else if String.eqb run (long_s ++ long_s) then "SS"
  else run.

Definition full_library (c : Ctor) : bool := true.
Definition no_library (c : Ctor) : bool := false.

Definition demo : Env :=
  mkEnv full_library true [still true 0%nat; still true 1%nat; still false 2%nat]
        (mkRect 10 20 40 30) true uncased.

(** ** What the output file is expected to hold *)

(** The row of one processed frame, as the interface describes it: real
    coordinates on success, four [-1] fields on failure. *)
Definition data_row (frame_id : Z) (f : Frame) : string :=
  if update_ok f then
    row frame_id (py_int (b0 (update_box f))) (py_int (b1 (update_box f)))
        (py_int (b2 (update_box f))) (py_int (b3 (update_box f)))
  else row frame_id (-1) (-1) (-1) (-1).

Fixpoint data_rows (frame_id : Z) (fs : list Frame) : list string :=
  match fs with
  | [] => []
  | f :: r => data_row frame_id f :: data_rows (frame_id + 1) r
  end.

(** The frames the loop gets through: all of them, or up to and
    including the first one on which escape is down. *)
Fixpoint processed (fs : list Frame) : list Frame :=
  match fs with
  | [] => []
  | f :: r => f :: (if is_esc (key f) then [] else processed r)
  end.

(** A text file made of the given lines, each terminated. *)
Fixpoint text (ls : list string) : string :=
  match ls with
  | [] => EmptyString
  | l :: r => l ++ newline ++ text r
  end.


Fixpoint mem_ascii (a : ascii) (s : string) : bool :=
  match s with
  | EmptyString => false
  | String c r => Ascii.eqb c a || mem_ascii a r
  end.

(** Characters of a printed integer: digits and the sign. *)
Fixpoint numeral (s : string) : bool :=
  match s with
  | EmptyString => true
  | String c r => (digit_ascii c || Ascii.eqb c "-") && numeral r
  end.

(** ** The two scripts as one family *)

Inductive Script : Type :=
| KCF_py (cfg : KCF.Config)
| ALL_py (cfg : ALL.Config).

(** The name [ALL.main] settles on in its first step. *)
Definition selected (cfg : ALL.Config) : string :=
  if ((0 <=? ALL.SELECTED_INDEX cfg)
      && (ALL.SELECTED_INDEX cfg <? Z.of_nat (List.length (ALL.TRACKER_TYPES cfg))))%bool
  then nth (Z.to_nat (ALL.SELECTED_INDEX cfg)) (ALL.TRACKER_TYPES cfg) ""
  else "KCF".

Definition run (s : Script) (env : Env) : M unit :=
  match s with
  | KCF_py cfg => KCF.main cfg env
  | ALL_py cfg => ALL.main cfg env
  end.

(** The algorithm name a run asks its factory for. *)
Definition requested (s : Script) : string :=
  match s with
  | KCF_py cfg => KCF.TRACKER_TYPE cfg
  | ALL_py cfg => selected cfg
  end.

(** The names a script's factory knows. *)
Definition enumerated (s : Script) : list string :=
  match s with
  | KCF_py _ => ["KCF"]
  | ALL_py _ => ALL.names
  end.

(** The lines a script writes before the first data row. *)
Definition preamble (s : Script) : list string :=
  match s with
  | KCF_py _ => [header]
  | ALL_py cfg => ["Algorithm: " ++ selected cfg; header]
  end.

(** The dispatch as a table, for comparison with the factories. *)
Definition table : list (string * Ctor) :=
  [("BOOSTING", TrackerBoosting_create); ("MIL", TrackerMIL_create);
   ("KCF", TrackerKCF_create); ("TLD", TrackerTLD_create);
   ("MEDIANFLOW", TrackerMedianFlow_create); ("MOSSE", TrackerMOSSE_create);
   ("CSRT", TrackerCSRT_create)].

Fixpoint assoc (k : string) (l : list (string * Ctor)) : option Ctor :=
  match l with
  | [] => None
  | (k', c) :: r => if String.eqb k k' then Some c else assoc k r
  end.

(** The handle each factory is expected to return for an upper-cased
    name: the constructor's tracker when the name is listed and the
    installed library has the constructor, the null handle otherwise. *)
Definition handle_ALL (env : Env) (NAME : string) : option Tracker :=
  match assoc NAME table with
  | Some c => if has_attr env c then Some c else None
  | None => None
  end.

Definition handle_KCF (env : Env) (NAME : string) : option Tracker :=
  if String.eqb NAME "KCF" then
    if has_attr env TrackerKCF_create then Some TrackerKCF_create
    else if has_attr env legacy_TrackerKCF_create then Some legacy_TrackerKCF_create
    else None
  else None.

Definition handle (s : Script) (env : Env) : option Tracker :=
  match s with
  | KCF_py cfg => handle_KCF env (str_upper env (KCF.TRACKER_TYPE cfg))
  | ALL_py cfg => handle_ALL env (str_upper env (selected cfg))
  end.

(** The five tests a run has to pass to get to its loop: a tracker was
    built, the source opened, a first frame was read, the selected box
    is not empty, the output file could be opened. *)
Definition passes (s : Script) (env : Env) : bool :=
  match handle s env with
  | None => false
  | Some _ =>
      opens env
      && match frames env with [] => false | _ :: _ => true end
      && negb ((b2 (roi env) =? 0) || (b3 (roi env) =? 0))
      && writable env
  end.

Definition is_release (c : Call) : bool :=
  match c with Release | DestroyAllWindows | Close => true | _ => false end.
Definition is_selectROI (c : Call) : bool :=
  match c with SelectROI _ _ => true | _ => false end.

Definition is_print (c : Call) : bool :=
  match c with Print _ => true | _ => false end.

(** Nothing is held: no capture handle, no window, no open file. *)
Definition all_released (w : World) : bool :=
  negb (video_open w || window_open w || file_open w).

(** What a loop leaves behind, whichever way it ends. *)
Definition loop_post (fid : Z) (pending : list Frame) (w : World)
    (r : Outcome unit * World) : Prop :=
  fst r = Ret tt
  /\ disk (snd r)
     = option_map (fun c => c ++ text (data_rows (fid + 1) (processed pending))) (disk w)
  /\ video_open (snd r) = video_open w
  /\ file_open (snd r) = file_open w.

(** The calls of one iteration on which [update] reports failure;
    [status] is the script's status line, [window] its window. *)
Definition failure_calls (status window : string) (t : Tracker) (fid : Z)
    (f : Frame) : list Call :=
  [Read; Update t (pixels f);
   PutText "Tracking failure detected" (100, 80);
   Write (sentinel (fid + 1) ++ newline);
   PutText status (20, 20);
   PutText ("FPS : " ++ str (py_int (fps f))) (20, 50);
   ImShow window (pixels f); WaitKey].

(** The world such an iteration leaves when it reaches its key test. *)
Definition after_failure (status window : string) (t : Tracker) (fid : Z)
    (f : Frame) (w : World) : World :=
  mkWorld (option_map (fun c => c ++ sentinel (fid + 1) ++ newline) (disk w))
          (video_open w) true (file_open w)
          (calls w ++ failure_calls status window t fid f).

(** [cfg] with another [SELECTED_INDEX]. *)
Definition with_index (i : Z) (cfg : ALL.Config) : ALL.Config :=
  ALL.mkConfig (ALL.VIDEO_PATH cfg) (ALL.OUTPUT_TXT cfg) (ALL.TRACKER_TYPES cfg) i.

(** Inputs used as examples: a source that opens but delivers nothing, a
    library without any tracker, a cancelled selection, a read-only
    output directory, a source that does not open, an interpreter that
    knows the long s, a clip on which escape is pressed at the second
    frame. *)
Definition no_frames : Env :=
  mkEnv full_library true [] (mkRect 10 20 40 30) true uncased.
Definition bare : Env :=
  mkEnv no_library true (frames demo) (mkRect 10 20 40 30) true uncased.
Definition cancelled : Env :=
  mkEnv full_library true (frames demo) (mkRect 0 0 0 0) true uncased.
Definition read_only : Env :=
  mkEnv full_library true (frames demo) (mkRect 10 20 40 30) false uncased.
Definition closed_source : Env :=
  mkEnv full_library false (frames demo) (mkRect 10 20 40 30) true uncased.
Definition long_s_speaker : Env :=
  mkEnv full_library true (frames demo) (mkRect 10 20 40 30) true long_s_table.
Definition interrupted : Env :=
  mkEnv full_library true
        [still true 0%nat; mkFrame 1 true (mkRect 1 2 3 4)%Q 25%Q 27; still true 2%nat]
        (mkRect 10 20 40 30) true uncased.

(** The comma-separated fields of a line, as [line.split(",")] gives
    them. *)
Fixpoint fields (s : string) : list string :=
  match s with
  | EmptyString => [EmptyString]
  | String c r =>
      if Ascii.eqb c "," then EmptyString :: fields r
      else match fields r with
           | [] => [String c EmptyString]
           | x :: xs => String c x :: xs
           end
  end.

(** Calls that belong to the start or the end of [main], never to its
    loop. *)
Definition is_setup (c : Call) : bool :=
  is_create c || is_capture c || is_selectROI c || is_init c || is_open c
  || is_release c.

(** What a loop adds to the record of calls: one [update] per frame it
    gets through, on the frames in order and on the one tracker; one
    write per frame, of that frame's row; nothing of [main]'s start or
    end. *)
Definition loop_calls (t : Tracker) (fid : Z) (pending : list Frame) (w : World)
    (r : Outcome unit * World) : Prop :=
  exists new,
    calls (snd r) = (calls w ++ new)%list
    /\ filter is_update new = map (fun f => Update t (pixels f)) (processed pending)
    /\ filter is_write new
       = map (fun l => Write (l ++ newline)) (data_rows (fid + 1) (processed pending))
    /\ filter is_setup new = [].

(** The last console line of a run that gets to the end of [main]. *)
Definition farewell (s : Script) : Message :=
  match s with
  | KCF_py _ => MsgReleased
  | ALL_py cfg => MsgSaved (ALL.OUTPUT_TXT cfg)
  end.

Definition output_path (s : Script) : string :=
  match s with
  | KCF_py cfg => KCF.OUTPUT_TXT cfg
  | ALL_py cfg => ALL.OUTPUT_TXT cfg
  end.

Definition video_path (s : Script) : string :=
  match s with
  | KCF_py cfg => KCF.VIDEO_PATH cfg
  | ALL_py cfg => ALL.VIDEO_PATH cfg
  end.

Definition window_name (s : Script) : string :=
  match s with
  | KCF_py _ => KCF.window
  | ALL_py _ => ALL.window
  end.

(** An installation with the legacy constructor only. *)
Definition legacy_library (c : Ctor) : bool :=
  match c with
  | legacy_TrackerKCF_create => true
  | _ => false
  end.
Definition recent : Env :=
  mkEnv legacy_library true (frames demo) (mkRect 10 20 40 30) true uncased.

Definition is_imshow (c : Call) : bool :=
  match c with ImShow _ _ => true | _ => false end.

(** The top-left corner a rectangle call was given. *)
Definition corner (c : Call) : option (Z * Z) :=
  match c with
  | Rectangle p1 _ => Some p1
  | _ => None
  end.

(** What a loop draws and shows: a rectangle on each frame it gets
    through on which [update] succeeded, cornered at the truncated
    position, and every frame it gets through shown once in [window]. *)
Definition loop_draws (window : string) (pending : list Frame) (w : World)
    (r : Outcome unit * World) : Prop :=
  exists new,
    calls (snd r) = (calls w ++ new)%list
    /\ map corner (filter is_rectangle new)
       = map (fun f => Some (py_int (b0 (update_box f)), py_int (b1 (update_box f))))
             (filter update_ok (processed pending))
    /\ filter is_imshow new
       = map (fun f => ImShow window (pixels f)) (processed pending).

(** * Properties *)

(** ** Strings *)

Lemma append_assoc (a b c : string) : (a ++ b) ++ c = a ++ (b ++ c).
Proof. induction a as [|x a IH]; simpl; [reflexivity | now rewrite IH]. Qed.

Lemma mem_ascii_app (a : ascii) (s t : string) :
  mem_ascii a (s ++ t) = (mem_ascii a s || mem_ascii a t)%bool.
Proof.
  induction s as [|c s IH]; simpl; [reflexivity|].
  rewrite IH. now rewrite orb_assoc.
Qed.

Lemma numeral_no (a : ascii) (s : string) :
  (digit_ascii a || Ascii.eqb a "-")%bool = false ->
  numeral s = true -> mem_ascii a s = false.
Proof.
  intros Ha. induction s as [|c s IH]; simpl; [reflexivity|].
  intros H. apply andb_prop in H. destruct H as [Hc Hs].
  rewrite (IH Hs), orb_false_r.
  destruct (Ascii.eqb_spec c a) as [->|]; [congruence | reflexivity].
Qed.

Lemma numeral_uint (u : Decimal.uint) : numeral (NilEmpty.string_of_uint u) = true.
Proof. induction u; simpl; auto. Qed.

Lemma numeral_str (n : Z) : numeral (str n) = true.
Proof.
  unfold str. destruct (Z.to_int n) as [u|u]; simpl.
  - destruct u; try reflexivity; apply (numeral_uint (_ _)).
  - destruct u; try reflexivity; apply (numeral_uint (_ _)).
Qed.

Lemma str_no_nl (n : Z) : mem_ascii nl (str n) = false.
Proof. apply numeral_no; [reflexivity | apply numeral_str]. Qed.

Lemma str_no_comma (n : Z) : mem_ascii "," (str n) = false.
Proof. apply numeral_no; [reflexivity | apply numeral_str]. Qed.

Lemma row_no_nl (i x y w h : Z) : mem_ascii nl (row i x y w h) = false.
Proof.
  unfold row. repeat rewrite mem_ascii_app. now rewrite !str_no_nl.
Qed.

Lemma data_row_no_nl (i : Z) (f : Frame) : mem_ascii nl (data_row i f) = false.
Proof. unfold data_row. destruct (update_ok f); apply row_no_nl. Qed.

Lemma sentinel_row (i : Z) : sentinel i = row i (-1) (-1) (-1) (-1).
Proof. reflexivity. Qed.

Lemma lines_line (l rest : string) :
  mem_ascii nl l = false -> lines (l ++ newline ++ rest) = l :: lines rest.
Proof.
  induction l as [|c l IH]; intros H.
  - reflexivity.
  - cbn [lines append mem_ascii] in *.
    apply orb_false_elim in H. destruct H as [Hc Hl].
    now rewrite Hc, (IH Hl).
Qed.

Lemma lines_text (ls : list string) :
  Forall (fun l => mem_ascii nl l = false) ls -> lines (text ls) = ls.
Proof.
  induction 1 as [|l ls Hl _ IH]; cbn [text]; [reflexivity|].
  now rewrite (lines_line l _ Hl), IH.
Qed.



Lemma data_rows_no_nl (fs : list Frame) :
  forall i, Forall (fun l => mem_ascii nl l = false) (data_rows i fs).
Proof.
  induction fs as [|f fs IH]; intros i; simpl; constructor;
    [apply data_row_no_nl | apply IH].
Qed.

Lemma data_rows_length (fs : list Frame) :
  forall i, List.length (data_rows i fs) = List.length fs.
Proof. induction fs as [|f fs IH]; intros i; simpl; [reflexivity | now rewrite IH]. Qed.

Lemma data_rows_nth (fs : list Frame) :
  forall i k f, nth_error fs k = Some f ->
    nth_error (data_rows i fs) k = Some (data_row (i + Z.of_nat k) f).
Proof.
  induction fs as [|g fs IH]; intros i k f H.
  - destruct k; discriminate.
  - destruct k as [|k]; simpl in *.
    + injection H as ->. now rewrite Z.add_0_r.
    + rewrite (IH (i + 1) k f H). f_equal. f_equal. lia.
Qed.

Lemma processed_all (fs : list Frame) :
  Forall (fun f => is_esc (key f) = false) fs -> processed fs = fs.
Proof.
  induction 1 as [|f fs Hf _ IH]; simpl; [reflexivity|].
  now rewrite Hf, IH.
Qed.

Lemma text_app (a b : list string) : text (a ++ b) = text a ++ text b.
Proof.
  induction a as [|l a IH]; simpl; [reflexivity|].
  rewrite IH. now rewrite !append_assoc.
Qed.

(** ** The update loops *)

Lemma append_nil_r (s : string) : s ++ "" = s.
Proof. induction s as [|c s IH]; simpl; [reflexivity | now rewrite IH]. Qed.

Lemma option_map_append_nil (d : option string) :
  option_map (fun c => c ++ "") d = d.
Proof. destruct d; simpl; [now rewrite append_nil_r | reflexivity]. Qed.

Lemma option_map_append (d : option string) (a b : string) :
  option_map (fun c => c ++ b) (option_map (fun c => c ++ a) d)
  = option_map (fun c => c ++ (a ++ b)) d.
Proof. destruct d; simpl; [now rewrite append_assoc | reflexivity]. Qed.

Lemma loop_post_step (fid : Z) (f : Frame) (rest : list Frame) (w w1 : World)
    (r : Outcome unit * World) (line : string) :
  line = data_row (fid + 1) f ->
  disk w1 = option_map (fun c => c ++ (line ++ newline)) (disk w) ->
  video_open w1 = video_open w -> file_open w1 = file_open w ->
  loop_post (fid + 1) (if is_esc (key f) then [] else rest) w1 r ->
  loop_post fid (f :: rest) w r.
Proof.
  intros -> Hd Hv Hf (Hr & Hd' & Hv' & Hf').
  repeat split; [exact Hr | | congruence | congruence].
  rewrite Hd', Hd, option_map_append. cbn [processed data_rows text].
  destruct (is_esc (key f)); cbn [processed data_rows text];
    now rewrite !append_assoc.
Qed.

Lemma loop_post_done (fid : Z) (w w1 : World) :
  disk w1 = disk w -> video_open w1 = video_open w -> file_open w1 = file_open w ->
  loop_post fid [] w (Ret tt, w1).
Proof.
  intros Hd Hv Hf. repeat split; cbn; try assumption.
  now rewrite option_map_append_nil.
Qed.

(** One iteration: run the body up to the key test, then hand over to
    [loop_post_step]. *)
Ltac loop_iteration f IH :=
  cbv beta iota zeta delta
    [bind call f_write cv2_imshow cv2_waitKey ret print tracker_update
     log set_disk set_window disk video_open window_open file_open calls];
  let Hok := fresh "Hok" in
  destruct (update_ok f) eqn:Hok;
  rewrite ?sentinel_row;
  match goal with
  | |- loop_post _ _ _ ((if is_esc ?k then _ else _) ?W) =>
      eapply (loop_post_step _ _ _ _ W);
      [ unfold data_row; rewrite Hok; reflexivity
      | reflexivity | reflexivity | reflexivity | ];
      destruct (is_esc k);
      [ apply loop_post_done; cbn [disk video_open file_open log]; reflexivity
      | apply IH ]
  end.

Lemma KCF_loop_post (cfg : KCF.Config) (t : Tracker) (pending : list Frame) :
  forall fid w, loop_post fid pending w (KCF.loop cfg t fid pending w).
Proof.
  induction pending as [|f rest IH]; intros fid [d v wi fo cs].
  - now apply loop_post_done.
  - cbn [KCF.loop]. loop_iteration f IH.
Qed.

Lemma ALL_loop_post (name : string) (t : Tracker) (pending : list Frame) :
  forall fid w, loop_post fid pending w (ALL.loop name t fid pending w).
Proof.
  induction pending as [|f rest IH]; intros fid [d v wi fo cs].
  - now apply loop_post_done.
  - cbn [ALL.loop]. loop_iteration f IH.
Qed.

(** ** The factories *)

Lemma KCF_factory (env : Env) (name : string) (w : World) :
  fst (KCF.create_tracker env name w) = Ret (handle_KCF env (str_upper env name)).
Proof.
  unfold KCF.create_tracker, handle_KCF.
  destruct (String.eqb (str_upper env name) "KCF"); [|reflexivity].
  destruct (has_attr env TrackerKCF_create); [reflexivity|].
  destruct (has_attr env legacy_TrackerKCF_create); reflexivity.
Qed.

Lemma ALL_try_create (env : Env) (c : Ctor) (w : World) :
  fst (ALL.try_create env c w) = Ret (if has_attr env c then Some c else None).
Proof. unfold ALL.try_create. destruct (has_attr env c); reflexivity. Qed.

Lemma ALL_factory (env : Env) (name : string) (w : World) :
  fst (ALL.create_tracker_by_name env name w)
  = Ret (handle_ALL env (str_upper env name)).
Proof.
  unfold ALL.create_tracker_by_name, handle_ALL, table.
  cbv beta iota delta [bind print call assoc].
  repeat match goal with
         | |- context [String.eqb (str_upper env name) ?k] =>
             destruct (String.eqb (str_upper env name) k); [apply ALL_try_create|]
         end.
  reflexivity.
Qed.

(** A name outside the enumerated set has the null handle. *)
Lemma not_enumerated_null (s : Script) (env : Env) :
  ~ In (str_upper env (requested s)) (enumerated s) -> handle s env = None.
Proof.
  destruct s as [cfg|cfg]; cbn [requested enumerated handle]; intros H.
  - unfold handle_KCF.
    destruct (String.eqb_spec (str_upper env (KCF.TRACKER_TYPE cfg)) "KCF") as [E|_];
      [|reflexivity].
    exfalso. apply H. left. now symmetry.
  - unfold handle_ALL, table, assoc.
    repeat match goal with
           | |- context [String.eqb (str_upper env (selected cfg)) ?k] =>
               destruct (String.eqb_spec (str_upper env (selected cfg)) k) as [E|_];
               [exfalso; apply H; rewrite E; cbn; tauto|]
           end.
    reflexivity.
Qed.

(** Conversely a listed name is looked up in the installed library. *)
Lemma enumerated_lookup (env : Env) (NAME : string) :
  In NAME ALL.names ->
  exists c, assoc NAME table = Some c
            /\ handle_ALL env NAME = (if has_attr env c then Some c else None).
Proof.
  unfold handle_ALL. cbn [ALL.names In].
  intros [<-|[<-|[<-|[<-|[<-|[<-|[<-|[]]]]]]]]; eexists; split; reflexivity.
Qed.

(** ** Whole runs *)

(** Expose every test a run makes on its inputs. *)
Ltac unfold_run :=
  cbv beta iota zeta delta
    [run KCF.main ALL.main KCF.create_tracker ALL.create_tracker_by_name
     ALL.try_create bind call ret print sys_exit cv2_VideoCapture
     video_isOpened video_read cv2_selectROI tracker_init open_w f_write
     video_release cv2_destroyAllWindows f_close log set_disk set_video
     set_window set_file boot disk video_open window_open file_open calls
     exited fst snd negb orb andb app option_map existsb tl
     handle handle_KCF handle_ALL assoc table selected requested preamble
     is_capture is_read is_init is_update is_open is_write is_rectangle
     is_create is_release is_selectROI].

Ltac break_test :=
  match goal with
  | |- context [match ?x with _ => _ end] =>
      lazymatch x with
      | context [match _ with _ => _ end] => fail
      | _ => destruct x eqn:?
      end
  end.

Ltac split_run := unfold_run; repeat (break_test; unfold_run).

(** The same from a world whose calls so far are not known. *)
Ltac unfold_open :=
  cbv beta iota zeta delta
    [run KCF.main ALL.main KCF.create_tracker ALL.create_tracker_by_name
     ALL.try_create bind call ret print sys_exit cv2_VideoCapture
     video_isOpened video_read cv2_selectROI tracker_init open_w f_write
     video_release cv2_destroyAllWindows f_close log set_disk set_video
     set_window set_file disk video_open window_open file_open calls
     exited fst snd negb orb andb option_map].

Ltac split_open := unfold_open; repeat (break_test; unfold_open).

(** Bring in what is known of a loop that has been run. *)
Ltac use_loop :=
  match goal with
  | H : KCF.loop ?cfg ?t ?i ?p ?W = (_, _) |- _ =>
      let P := fresh "P" in
      pose proof (KCF_loop_post cfg t p i W) as P; rewrite H in P; clear H;
      destruct P as (? & ? & ? & ?)
  | H : ALL.loop ?n ?t ?i ?p ?W = (_, _) |- _ =>
      let P := fresh "P" in
      pose proof (ALL_loop_post n t p i W) as P; rewrite H in P; clear H;
      destruct P as (? & ? & ? & ?)
  end.

Ltac finish_run :=
  use_loop; cbn [fst snd disk video_open window_open file_open option_map] in *;
  try discriminate.

Lemma run_completes (s : Script) (env : Env) (d : option string) :
  exited (run s env (boot d)) = false ->
  disk (snd (run s env (boot d)))
  = Some (text (preamble s ++ data_rows 2 (processed (tl (frames env)))))
  /\ video_open (snd (run s env (boot d))) = false
  /\ window_open (snd (run s env (boot d))) = false
  /\ file_open (snd (run s env (boot d))) = false
  /\ frames env <> []
  /\ handle s env <> None.
Proof.
  destruct s as [cfg|cfg].
  - split_run; intros; try discriminate.
    all: finish_run.
    all: repeat split; try discriminate.
    all: subst; cbn [text]; f_equal; rewrite !append_assoc; reflexivity.
  - split_run; intros; try discriminate.
    all: finish_run.
    all: repeat split; try discriminate.
    all: subst; cbn [text]; f_equal; rewrite !append_assoc; reflexivity.
Qed.

(** A run ends in [sys.exit()] exactly when one of the five tests fails;
    once in the loop it always gets to the end of [main]. *)
Lemma exited_iff_fails (s : Script) (env : Env) (w : World) :
  exited (run s env w) = negb (passes s env).
Proof.
  destruct w as [d v wi fo cs].
  destruct s as [cfg|cfg]; unfold passes.
  - cbv beta iota zeta delta [handle handle_KCF].
    split_open; try reflexivity; use_loop; cbn [fst] in *; discriminate.
  - cbv beta iota zeta delta [handle handle_ALL assoc table selected].
    split_open; try reflexivity; use_loop; cbn [fst] in *; discriminate.
Qed.

(** So whether a run exits early does not depend on the world it starts
    in, only on its inputs. *)
Lemma exited_any_world (s : Script) (env : Env) (w w' : World) :
  exited (run s env w) = exited (run s env w').
Proof. now rewrite !exited_iff_fails. Qed.

(** A run whose factory hands back the null handle: it exits having
    done nothing but print. *)
Lemma null_handle_exits (s : Script) (env : Env) (d : option string) :
  handle s env = None ->
  exited (run s env (boot d)) = true
  /\ forallb is_print (calls (snd (run s env (boot d)))) = true
  /\ disk (snd (run s env (boot d))) = d.
Proof.
  destruct s as [cfg|cfg].
  - split_run; intros; try discriminate; repeat split; reflexivity.
  - split_run; intros; try discriminate; repeat split; reflexivity.
Qed.

Lemma only_prints (P : Call -> bool) (l : list Call) :
  (forall m, P (Print m) = false) ->
  forallb is_print l = true -> existsb P l = false.
Proof.
  intros HP. induction l as [|c l IH]; simpl; [reflexivity|].
  intros H. apply andb_prop in H. destruct H as [Hc Hl].
  rewrite (IH Hl), orb_false_r. destruct c; try discriminate. apply HP.
Qed.

Lemma upper_ascii_nl (c : ascii) : Ascii.eqb (upper_ascii c) nl = Ascii.eqb c nl.
Proof. destruct c as [[] [] [] [] [] [] [] []]; reflexivity. Qed.

Lemma upper_nl (s : string) : mem_ascii nl (upper s) = mem_ascii nl s.
Proof.
  induction s as [|c s IH]; cbn [upper mem_ascii]; [reflexivity|].
  now rewrite upper_ascii_nl, IH.
Qed.

(** Upper-casing never removes a line break, whatever the tables say
    beyond ASCII. *)
Lemma upper_runs_keeps_nl (table : string -> string) (s : string) :
  forall run, mem_ascii nl (upper_runs table run s) = false -> mem_ascii nl s = false.
Proof.
  induction s as [|c s IH]; intros run H; [reflexivity|].
  cbn [upper_runs mem_ascii] in *. destruct (is_ascii_char c) eqn:E.
  - rewrite mem_ascii_app in H. apply orb_false_elim in H. destruct H as [_ H].
    cbn [mem_ascii] in H. apply orb_false_elim in H. destruct H as [Hc Hs].
    rewrite upper_ascii_nl in Hc. rewrite Hc. exact (IH _ Hs).
  - rewrite (IH _ H), orb_false_r.
    destruct (Ascii.eqb_spec c nl) as [->|]; [discriminate E | reflexivity].
Qed.

Lemma str_upper_keeps_nl (env : Env) (s : string) :
  mem_ascii nl (str_upper env s) = false -> mem_ascii nl s = false.
Proof. apply upper_runs_keeps_nl. Qed.

(** On a string of ASCII characters the tables beyond ASCII are never
    asked: [str_upper] is [upper]. *)
Lemma str_upper_ascii (env : Env) (s : string) :
  is_ascii s = true -> str_upper env s = upper s.
Proof.
  unfold str_upper. induction s as [|c s IH]; intros H; [reflexivity|].
  cbn [is_ascii upper_runs upper flush append] in *.
  apply andb_prop in H. destruct H as [Hc Hs].
  now rewrite Hc, (IH Hs).
Qed.

Lemma upper_ascii_idem (c : ascii) : upper_ascii (upper_ascii c) = upper_ascii c.
Proof. destruct c as [[] [] [] [] [] [] [] []]; reflexivity. Qed.

Lemma upper_idem (s : string) : upper (upper s) = upper s.
Proof.
  induction s as [|c s IH]; cbn [upper]; [reflexivity|].
  now rewrite upper_ascii_idem, IH.
Qed.

Lemma upper_ascii_stays_ascii (c : ascii) :
  is_ascii_char (upper_ascii c) = is_ascii_char c.
Proof. destruct c as [[] [] [] [] [] [] [] []]; reflexivity. Qed.

Lemma upper_stays_ascii (s : string) : is_ascii (upper s) = is_ascii s.
Proof.
  induction s as [|c s IH]; cbn [upper is_ascii]; [reflexivity|].
  now rewrite upper_ascii_stays_ascii, IH.
Qed.

Lemma handle_ALL_listed (env : Env) (NAME : string) :
  handle_ALL env NAME <> None -> In NAME ALL.names.
Proof.
  unfold handle_ALL, table, assoc.
  repeat match goal with
         | |- context [String.eqb NAME ?k] =>
             destruct (String.eqb_spec NAME k) as [->|_]; [intros _; cbn; tauto|]
         end.
  intros H. now elim H.
Qed.

Lemma preamble_no_nl (s : Script) (env : Env) :
  handle s env <> None ->
  Forall (fun l => mem_ascii nl l = false) (preamble s).
Proof.
  destruct s as [cfg|cfg]; cbn [preamble handle]; intros H.
  - repeat constructor.
  - repeat constructor. rewrite mem_ascii_app. cbn [mem_ascii Ascii.eqb Bool.eqb orb].
    apply (str_upper_keeps_nl env).
    apply handle_ALL_listed in H. cbn [ALL.names In] in H.
    destruct H as [<-|[<-|[<-|[<-|[<-|[<-|[<-|[]]]]]]]]; reflexivity.
Qed.

Lemma lines_of_text (s : Script) (env : Env) (fs : list Frame) :
  handle s env <> None ->
  lines (text (preamble s ++ data_rows 2 fs)) = (preamble s ++ data_rows 2 fs)%list.
Proof.
  intros H. apply lines_text, Forall_app. split.
  - now apply preamble_no_nl with env.
  - apply data_rows_no_nl.
Qed.


(** ** The calls of the loops *)

Lemma loop_calls_step (t : Tracker) (fid : Z) (f : Frame) (rest : list Frame)
    (w w1 : World) (r : Outcome unit * World) (it : list Call) :
  calls w1 = (calls w ++ it)%list ->
  filter is_update it = [Update t (pixels f)] ->
  filter is_write it = [Write (data_row (fid + 1) f ++ newline)] ->
  filter is_setup it = [] ->
  loop_calls t (fid + 1) (if is_esc (key f) then [] else rest) w1 r ->
  loop_calls t fid (f :: rest) w r.
Proof.
  intros Hc Hu Hw Hs (new & Hn & Hu' & Hw' & Hs').
  exists (it ++ new)%list. rewrite Hn, Hc, <- app_assoc, !filter_app, Hu, Hw, Hs, Hu', Hw', Hs'.
  cbn [processed data_rows map app].
  destruct (is_esc (key f)); repeat split.
Qed.

Lemma loop_calls_done (t : Tracker) (fid : Z) (w w1 : World) (last : list Call) :
  calls w1 = (calls w ++ last)%list ->
  filter is_update last = [] -> filter is_write last = [] ->
  filter is_setup last = [] ->
  loop_calls t fid [] w (Ret tt, w1).
Proof. intros Hc Hu Hw Hs. exists last. repeat split; assumption. Qed.

Ltac calls_iteration f IH :=
  cbv beta iota zeta delta
    [bind call f_write cv2_imshow cv2_waitKey ret print tracker_update
     log set_disk set_window disk video_open window_open file_open calls];
  let Hok := fresh "Hok" in
  destruct (update_ok f) eqn:Hok;
  rewrite ?sentinel_row;
  match goal with
  | |- loop_calls _ _ _ _ ((if is_esc ?k then _ else _) ?W) =>
      eapply (loop_calls_step _ _ _ _ _ W);
      [ cbn [calls]; rewrite <- !app_assoc; cbn [app]; reflexivity
      | reflexivity
      | unfold data_row; rewrite Hok; reflexivity
      | reflexivity
      | ];
      destruct (is_esc k);
      [ eapply loop_calls_done;
        [ cbn [calls];
          first [ rewrite <- (app_nil_r (A := Call)) at 1; reflexivity | reflexivity ]
        | reflexivity | reflexivity | reflexivity ]
      | apply IH ]
  end.

Lemma KCF_loop_calls (cfg : KCF.Config) (t : Tracker) (pending : list Frame) :
  forall fid w, loop_calls t fid pending w (KCF.loop cfg t fid pending w).
Proof.
  induction pending as [|f rest IH]; intros fid [d v wi fo cs].
  - now apply loop_calls_done with [Read].
  - cbn [KCF.loop]. calls_iteration f IH.
Qed.

Lemma ALL_loop_calls (name : string) (t : Tracker) (pending : list Frame) :
  forall fid w, loop_calls t fid pending w (ALL.loop name t fid pending w).
Proof.
  induction pending as [|f rest IH]; intros fid [d v wi fo cs].
  - now apply loop_calls_done with [Read].
  - cbn [ALL.loop]. calls_iteration f IH.
Qed.

Ltac use_loop_calls :=
  match goal with
  | H : KCF.loop ?cfg ?t ?i ?p ?W = (_, _) |- _ =>
      let P := fresh "P" in
      pose proof (KCF_loop_calls cfg t p i W) as P; rewrite H in P;
      destruct P as (? & ? & ? & ? & ?)
  | H : ALL.loop ?n ?t ?i ?p ?W = (_, _) |- _ =>
      let P := fresh "P" in
      pose proof (ALL_loop_calls n t p i W) as P; rewrite H in P;
      destruct P as (? & ? & ? & ? & ?)
  end.



(** * The claims *)

(** ** C1: the rows of the output file *)

(** C1 as it is written fails on ALL.py: on the three-frame test clip
    (tracker found, source open, non-empty box, no key pressed) the file
    does not consist of the one header line and the two data rows; it
    has four lines, the first of which names the algorithm. *)
Lemma one_header_line_fails_for_ALL :
  exited (run (ALL_py ALL.config) demo (boot None)) = false
  /\ Forall (fun f => is_esc (key f) = false) (tl (frames demo))
  /\ option_map lines (disk (snd (run (ALL_py ALL.config) demo (boot None))))
     = Some ["Algorithm: CSRT"; header; "2, 10, 7, 40, 30"; "3, -1, -1, -1, -1"]
  /\ option_map lines (disk (snd (run (ALL_py ALL.config) demo (boot None))))
     <> Some (header :: data_rows 2 (tl (frames demo))).
Proof.
  split; [reflexivity|]. split; [repeat constructor|].
  split; [reflexivity|]. discriminate.
Qed.

(** C1 (amended): a run that does not exit early and during which escape
    is never pressed leaves a file whose lines are the script's preamble
    (the column header; in ALL.py the algorithm line before it) followed
    by one row per frame after the first, [total frames - 1] rows in
    all; the row of the [k]-th such frame is [frame_id, x, y, w, h] with
    the truncated box on success and with four [-1] fields on failure. *)
Theorem output_rows_one_per_frame (s : Script) (env : Env) (d : option string) :
  exited (run s env (boot d)) = false ->
  Forall (fun f => is_esc (key f) = false) (tl (frames env)) ->
  option_map lines (disk (snd (run s env (boot d))))
  = Some (preamble s ++ data_rows 2 (tl (frames env)))%list
  /\ preamble s = match s with
                  | KCF_py _ => [header]
                  | ALL_py cfg => ["Algorithm: " ++ selected cfg; header]
                  end
  /\ (List.length (data_rows 2 (tl (frames env))) + 1 = List.length (frames env))%nat
  /\ (forall k f, nth_error (tl (frames env)) k = Some f ->
        nth_error (data_rows 2 (tl (frames env))) k
        = Some (if update_ok f
                then row (2 + Z.of_nat k)
                         (py_int (b0 (update_box f))) (py_int (b1 (update_box f)))
                         (py_int (b2 (update_box f))) (py_int (b3 (update_box f)))
                else row (2 + Z.of_nat k) (-1) (-1) (-1) (-1)))
  /\ (forall i, sentinel i = row i (-1) (-1) (-1) (-1)).
Proof.
  intros Hrun Hkeys.
  destruct (run_completes s env d Hrun) as (Hdisk & _ & _ & _ & Hfs & Hh).
  rewrite (processed_all _ Hkeys) in Hdisk.
  split.
  { rewrite Hdisk. cbn [option_map]. f_equal. now apply lines_of_text with env. }
  split; [now destruct s|].
  split.
  { rewrite data_rows_length. destruct (frames env); [now elim Hfs | cbn; lia]. }
  split; [|exact sentinel_row].
  intros k f Hk. now rewrite (data_rows_nth _ 2 k f Hk).
Qed.

Lemma output_rows_one_per_frame_witness :
  option_map lines (disk (snd (run (KCF_py KCF.config) demo (boot (Some "stale")))))
  = Some [header; "2, 10, 7, 40, 30"; "3, -1, -1, -1, -1"].
Proof.
  refine (proj1 (output_rows_one_per_frame (KCF_py KCF.config) demo (Some "stale") _ _)).
  - reflexivity.
  - repeat constructor.
Defined.

(** ** C10: the frame indices *)



(** ** C8: truncation *)

(** C8: the second of two consecutive runs, when it gets to the output
    stage, leaves exactly its own preamble and rows in the file: what
    the first run (or anything else) had left there is gone, and the
    content is the same as on an empty disk. *)
Theorem second_run_rewrites_file (s : Script) (env1 env2 : Env) (d : option string) :
  exited (run s env2 (boot (disk (snd (run s env1 (boot d)))))) = false ->
  option_map lines (disk (snd (run s env2 (boot (disk (snd (run s env1 (boot d))))))))
  = Some (preamble s ++ data_rows 2 (processed (tl (frames env2))))%list
  /\ disk (snd (run s env2 (boot (disk (snd (run s env1 (boot d)))))))
     = disk (snd (run s env2 (boot None))).
Proof.
  intros Hrun.
  destruct (run_completes s env2 _ Hrun) as (Hdisk & _ & _ & _ & _ & Hh).
  split.
  { rewrite Hdisk. cbn [option_map]. f_equal. now apply lines_of_text with env2. }
  rewrite (exited_any_world s env2 _ (boot None)) in Hrun.
  destruct (run_completes s env2 None Hrun) as (Hdisk' & _).
  now rewrite Hdisk, Hdisk'.
Qed.

Lemma second_run_rewrites_file_witness :
  option_map lines (disk (snd (run (KCF_py KCF.config) interrupted
     (boot (disk (snd (run (KCF_py KCF.config) demo (boot None))))))))
  = Some [header; "2, 1, 2, 3, 4"].
Proof.
  exact (proj1 (second_run_rewrites_file (KCF_py KCF.config) demo interrupted None
                  eq_refl)).
Defined.

(** ** C2: resources on the early-exit paths *)

(** C2 as it is written fails: when the source opens but delivers no
    first frame, KCF.py exits with the capture handle still held. *)
Lemma unreadable_first_frame_keeps_video :
  exited (run (KCF_py KCF.config) no_frames (boot None)) = true
  /\ video_open (snd (run (KCF_py KCF.config) no_frames (boot None))) = true
  /\ all_released (snd (run (KCF_py KCF.config) no_frames (boot None))) = false.
Proof. repeat split. Qed.

(** C2 (amended): on every early-exit path the process goes straight to
    [sys.exit()]: it makes no release call; the output file is not open
    (it never was); the capture handle is still held exactly when the
    source had been opened, and the window exactly when the ROI selector
    had been shown. *)
Theorem early_exit_releases_nothing (s : Script) (env : Env) (d : option string) :
  exited (run s env (boot d)) = true ->
  existsb is_release (calls (snd (run s env (boot d)))) = false
  /\ file_open (snd (run s env (boot d))) = false
  /\ video_open (snd (run s env (boot d)))
     = (existsb is_capture (calls (snd (run s env (boot d)))) && opens env)%bool
  /\ window_open (snd (run s env (boot d)))
     = existsb is_selectROI (calls (snd (run s env (boot d)))).
Proof.
  destruct s as [cfg|cfg].
  - split_run; intros; try discriminate; try (repeat split; reflexivity);
      finish_run.
  - split_run; intros; try discriminate; try (repeat split; reflexivity);
      finish_run.
Qed.

Lemma early_exit_releases_nothing_witness :
  existsb is_release (calls (snd (run (ALL_py ALL.config) cancelled (boot None)))) = false
  /\ file_open (snd (run (ALL_py ALL.config) cancelled (boot None))) = false
  /\ video_open (snd (run (ALL_py ALL.config) cancelled (boot None))) = true
  /\ window_open (snd (run (ALL_py ALL.config) cancelled (boot None))) = true.
Proof.
  exact (early_exit_releases_nothing (ALL_py ALL.config) cancelled None eq_refl).
Defined.

(** ** C3: unsupported algorithm names *)

(** C3: when the upper-cased name a run asks for is not one the script's
    factory lists, the process exits without having opened the video
    source or touched the output file: no capture call, no [open], the
    disk as it was. *)
Theorem unsupported_name_exits_first (s : Script) (env : Env) (d : option string) :
  ~ In (str_upper env (requested s)) (enumerated s) ->
  exited (run s env (boot d)) = true
  /\ existsb is_capture (calls (snd (run s env (boot d)))) = false
  /\ existsb is_open (calls (snd (run s env (boot d)))) = false
  /\ disk (snd (run s env (boot d))) = d.
Proof.
  intros H. apply not_enumerated_null with (env := env) in H.
  destruct (null_handle_exits s env d H) as (Hx & Hp & Hd).
  repeat split; try assumption; now apply only_prints.
Qed.

Lemma unsupported_name_exits_first_witness :
  exited (run (KCF_py (KCF.mkConfig "bear.mp4" "tracking_data.txt" "csrt")) demo
              (boot (Some "kept"))) = true
  /\ disk (snd (run (KCF_py (KCF.mkConfig "bear.mp4" "tracking_data.txt" "csrt")) demo
                    (boot (Some "kept")))) = Some "kept".
Proof.
  assert (H : ~ In (str_upper demo
                      (requested (KCF_py (KCF.mkConfig "bear.mp4" "tracking_data.txt" "csrt"))))
                (enumerated (KCF_py (KCF.mkConfig "bear.mp4" "tracking_data.txt" "csrt")))).
  { cbn. intros [E|[]]. discriminate E. }
  split.
  - exact (proj1 (unsupported_name_exits_first _ demo (Some "kept") H)).
  - exact (proj2 (proj2 (proj2 (unsupported_name_exits_first _ demo (Some "kept") H)))).
Defined.

(** ** C4: a source that cannot be opened *)

(** C4: when the source does not open, the process exits; the output
    file is not opened and stays as it was, and the tracker's [init] is
    never called. *)
Theorem unopened_source_exits (s : Script) (env : Env) (d : option string) :
  opens env = false ->
  exited (run s env (boot d)) = true
  /\ existsb is_open (calls (snd (run s env (boot d)))) = false
  /\ disk (snd (run s env (boot d))) = d
  /\ existsb is_init (calls (snd (run s env (boot d)))) = false.
Proof.
  destruct s as [cfg|cfg].
  - split_run; intros; try discriminate; repeat split; reflexivity.
  - split_run; intros; try discriminate; repeat split; reflexivity.
Qed.

Lemma unopened_source_exits_witness :
  exited (run (ALL_py ALL.config) closed_source (boot None)) = true
  /\ existsb is_open (calls (snd (run (ALL_py ALL.config) closed_source (boot None)))) = false
  /\ disk (snd (run (ALL_py ALL.config) closed_source (boot None))) = None
  /\ existsb is_init (calls (snd (run (ALL_py ALL.config) closed_source (boot None)))) = false.
Proof.
  exact (unopened_source_exits (ALL_py ALL.config) closed_source None eq_refl).
Defined.

(** ** C5: an empty selection *)

(** C5: when the selected box has zero width or zero height, the process
    exits; the output file is not opened and stays as it was, and the
    tracker's [init] is never called. *)
Theorem empty_roi_exits (s : Script) (env : Env) (d : option string) :
  b2 (roi env) = 0 \/ b3 (roi env) = 0 ->
  exited (run s env (boot d)) = true
  /\ existsb is_open (calls (snd (run s env (boot d)))) = false
  /\ disk (snd (run s env (boot d))) = d
  /\ existsb is_init (calls (snd (run s env (boot d)))) = false.
Proof.
  intros H.
  assert (Hz : ((b2 (roi env) =? 0) || (b3 (roi env) =? 0))%bool = true).
  { destruct H as [-> | ->]; [reflexivity | apply orb_true_r]. }
  clear H. revert Hz.
  destruct s as [cfg|cfg].
  - split_run; intros; try discriminate; repeat split; reflexivity.
  - split_run; intros; try discriminate; repeat split; reflexivity.
Qed.

Lemma empty_roi_exits_witness :
  exited (run (KCF_py KCF.config) cancelled (boot None)) = true
  /\ existsb is_open (calls (snd (run (KCF_py KCF.config) cancelled (boot None)))) = false
  /\ disk (snd (run (KCF_py KCF.config) cancelled (boot None))) = None
  /\ existsb is_init (calls (snd (run (KCF_py KCF.config) cancelled (boot None)))) = false.
Proof.
  apply (empty_roi_exits (KCF_py KCF.config) cancelled None).
  left. reflexivity.
Defined.

(** ** C7: the dispatch *)

(** C7 as it is written fails: ["KCF"] is one of the names ALL.py lists,
    yet on an installation without the tracker constructors its factory
    hands back the null handle. *)
Lemma listed_name_null_handle :
  In (str_upper bare "KCF") ALL.names
  /\ fst (ALL.create_tracker_by_name bare "KCF" (boot None)) = Ret None
  /\ fst (KCF.create_tracker bare "KCF" (boot None)) = Ret None.
Proof. split; [cbn; tauto | split; reflexivity]. Qed.

(** C7 (amended): each factory looks the upper-cased name ([str.upper()]
    as the interpreter computes it, beyond ASCII too) up in its
    enumerated set.  For a listed name it returns the tracker of the
    corresponding constructor when the installed library has that
    constructor (KCF.py falls back on the legacy one), and the null
    handle when it has not; for every other name it returns the null
    handle.  On names of ASCII characters the upper-cased name is the
    name with [a-z] turned into [A-Z].  A run whose factory returns the
    null handle exits without a single frame read. *)
Theorem dispatch_by_upper_name (env : Env) :
  (forall name w,
      fst (ALL.create_tracker_by_name env name w)
      = Ret (handle_ALL env (str_upper env name))
      /\ fst (KCF.create_tracker env name w)
         = Ret (handle_KCF env (str_upper env name)))
  /\ (forall name, is_ascii name = true -> str_upper env name = upper name)
  /\ (forall NAME, In NAME ALL.names ->
        exists c, assoc NAME table = Some c
                  /\ handle_ALL env NAME = if has_attr env c then Some c else None)
  /\ (forall NAME, ~ In NAME ALL.names -> handle_ALL env NAME = None)
  /\ handle_KCF env "KCF"
     = (if has_attr env TrackerKCF_create then Some TrackerKCF_create
        else if has_attr env legacy_TrackerKCF_create then Some legacy_TrackerKCF_create
        else None)
  /\ (forall NAME, NAME <> "KCF" -> handle_KCF env NAME = None)
  /\ (forall s d, handle s env = None ->
        exited (run s env (boot d)) = true
        /\ existsb is_read (calls (snd (run s env (boot d)))) = false
        /\ existsb is_capture (calls (snd (run s env (boot d)))) = false).
Proof.
  split; [intros name w; split; [apply ALL_factory | apply KCF_factory]|].
  split; [intros name; apply str_upper_ascii|].
  split; [intros NAME; apply enumerated_lookup|].
  split.
  { intros NAME H. destruct (handle_ALL env NAME) eqn:E; [|reflexivity].
    elim H. apply handle_ALL_listed with env. now rewrite E. }
  split; [reflexivity|].
  split.
  { intros NAME H. unfold handle_KCF.
    destruct (String.eqb_spec NAME "KCF"); [contradiction | reflexivity]. }
  intros s d H. destruct (null_handle_exits s env d H) as (Hx & Hp & _).
  repeat split; try assumption; now apply only_prints.
Qed.

Lemma dispatch_by_upper_name_witness :
  fst (ALL.create_tracker_by_name demo "MedianFlow" (boot None))
  = Ret (Some TrackerMedianFlow_create)
  /\ fst (ALL.create_tracker_by_name long_s_speaker ("mo" ++ long_s ++ long_s ++ "e")
            (boot None))
     = Ret (Some TrackerMOSSE_create)
  /\ exited (run (ALL_py ALL.config) bare (boot None)) = true.
Proof.
  split; [|split].
  - exact (proj1 (proj1 (dispatch_by_upper_name demo) "MedianFlow" (boot None))).
  - exact (proj1 (proj1 (dispatch_by_upper_name long_s_speaker)
                    ("mo" ++ long_s ++ long_s ++ "e") (boot None))).
  - exact (proj1 (proj2 (proj2 (proj2 (proj2 (proj2 (proj2
             (dispatch_by_upper_name bare)))))) (ALL_py ALL.config) None eq_refl)).
Defined.

(** ** C6: a tracking failure *)

(** C6: an iteration on which [update] reports failure makes exactly the
    calls of [failure_calls] (one [update], the warning text, the write
    of the sentinel row, the status texts, the display, the key poll: no
    rectangle, no [init], no second [update]), appends the sentinel row
    for [frame_id + 1] to the file, and then goes on with the next frame
    unless escape is down; a loop never ends in [sys.exit()], and on an
    exhausted source it stops after the failed read. *)
Theorem tracking_failure_is_not_terminal (f : Frame) (rest : list Frame)
    (fid : Z) (w : World) :
  update_ok f = false ->
  (forall cfg t,
      KCF.loop cfg t fid (f :: rest) w
      = (if is_esc (key f) then print MsgUserStop else KCF.loop cfg t (fid + 1) rest)
          (after_failure ("Tracker: " ++ KCF.TRACKER_TYPE cfg) KCF.window t fid f w))
  /\ (forall name t,
      ALL.loop name t fid (f :: rest) w
      = (if is_esc (key f) then ret tt else ALL.loop name t (fid + 1) rest)
          (after_failure (name ++ " Tracker") ALL.window t fid f w))
  /\ (forall status window t,
      existsb is_rectangle (failure_calls status window t fid f) = false
      /\ existsb is_init (failure_calls status window t fid f) = false
      /\ filter is_update (failure_calls status window t fid f) = [Update t (pixels f)]
      /\ filter is_write (failure_calls status window t fid f)
         = [Write (row (fid + 1) (-1) (-1) (-1) (-1) ++ newline)]
      /\ In (PutText "Tracking failure detected" (100, 80))
            (failure_calls status window t fid f))
  /\ (forall cfg name t i pending w',
      exited (KCF.loop cfg t i pending w') = false
      /\ exited (ALL.loop name t i pending w') = false
      /\ KCF.loop cfg t i [] w' = (Ret tt, log Read w')
      /\ ALL.loop name t i [] w' = (Ret tt, log Read w')).
Proof.
  intros Hok. destruct w as [d v wi fo cs].
  split.
  { intros cfg t. cbn [KCF.loop].
    cbv beta iota zeta delta
      [bind call f_write cv2_imshow cv2_waitKey ret print tracker_update
       log set_disk set_window disk video_open window_open file_open calls
       after_failure failure_calls].
    rewrite Hok. rewrite <- !app_assoc. reflexivity. }
  split.
  { intros name t. cbn [ALL.loop].
    cbv beta iota zeta delta
      [bind call f_write cv2_imshow cv2_waitKey ret print tracker_update
       log set_disk set_window disk video_open window_open file_open calls
       after_failure failure_calls].
    rewrite Hok. rewrite <- !app_assoc. reflexivity. }
  split.
  { intros status window t. cbn [failure_calls existsb filter is_rectangle is_init
      is_update is_write orb In]. rewrite sentinel_row. intuition. }
  intros cfg name t i pending w'.
  destruct (KCF_loop_post cfg t pending i w') as (HK & _).
  destruct (ALL_loop_post name t pending i w') as (HA & _).
  unfold exited. rewrite HK, HA. repeat split.
Qed.

Lemma tracking_failure_is_not_terminal_witness :
  KCF.loop KCF.config TrackerKCF_create 1 [still false 1%nat; still true 2%nat] (boot (Some ""))
  = (if is_esc (key (still false 1%nat)) then print MsgUserStop
     else KCF.loop KCF.config TrackerKCF_create (1 + 1) [still true 2%nat])
      (after_failure ("Tracker: " ++ KCF.TRACKER_TYPE KCF.config) KCF.window
         TrackerKCF_create 1 (still false 1%nat) (boot (Some ""))).
Proof.
  exact (proj1 (tracking_failure_is_not_terminal (still false 1%nat) [still true 2%nat]
                  1 (boot (Some "")) eq_refl) KCF.config TrackerKCF_create).
Defined.

(** ** C9: an index out of range *)



(** * Further properties of the scripts *)

(** ** The calls of a whole run *)

Ltac finish_trace :=
  use_loop_calls; use_loop; cbn [fst snd calls] in *; try discriminate;
  subst;
  match goal with
  | Hx : filter is_setup ?x = [] |- context [(?pre ++ ?x)%list] =>
      eexists; eexists; exists pre, x
  end;
  split; [reflexivity|];
  split; [reflexivity|];
  split; [rewrite <- !app_assoc; reflexivity|];
  repeat split; assumption.

(** A run that gets to the end of [main] has made, in this order: the
    calls of the start (among them exactly one of each of constructor,
    capture, ROI selection, [init] and [open]), the calls of its loop,
    and the three release calls followed by the last console line. *)
Lemma completed_trace (s : Script) (env : Env) (d : option string) :
  exited (run s env (boot d)) = false ->
  exists t first pre new,
    handle s env = Some t
    /\ hd_error (frames env) = Some first
    /\ calls (snd (run s env (boot d)))
       = (pre ++ new ++ [Release; DestroyAllWindows; Close; Print (farewell s)])%list
    /\ filter is_setup pre
       = [Create t; VideoCapture (video_source (video_path s));
          SelectROI (window_name s) (pixels first);
          Init t (pixels first) (roi env); OpenW (output_path s)]
    /\ filter is_update pre = []
    /\ filter is_update new
       = map (fun f => Update t (pixels f)) (processed (tl (frames env)))
    /\ filter is_write new
       = map (fun l => Write (l ++ newline))
             (data_rows (1 + 1) (processed (tl (frames env))))
    /\ filter is_setup new = [].
Proof.
  destruct s as [cfg|cfg];
    cbv beta iota zeta delta
      [handle handle_KCF handle_ALL assoc table selected farewell output_path
       video_path window_name boot hd_error tl].
  - split_open; intros; try discriminate; finish_trace.
  - split_open; intros; try discriminate; finish_trace.
Qed.

(** ** Completed runs *)



(** X2: the tracker is initialised before it is ever updated, and it is
    then updated exactly once per frame the loop gets through, on those
    frames in their order and always on the handle the factory built;
    there are as many updates as data rows. *)
Theorem one_update_per_processed_frame (s : Script) (env : Env) (d : option string) :
  exited (run s env (boot d)) = false ->
  exists t pre post,
    handle s env = Some t
    /\ calls (snd (run s env (boot d))) = (pre ++ post)%list
    /\ filter is_init pre <> [] /\ filter is_update pre = []
    /\ filter is_init post = []
    /\ filter is_update post
       = map (fun f => Update t (pixels f)) (processed (tl (frames env)))
    /\ List.length (filter is_update (calls (snd (run s env (boot d)))))
       = List.length (data_rows 2 (processed (tl (frames env)))).
Proof.
  intros Hrun.
  destruct (completed_trace s env d Hrun)
    as (t & first & pre & new & Hh & Hf & Hc & Hpre & Hup & Hun & _ & Hnew).
  assert (Hi : forall l, filter is_setup l = [] -> filter is_init l = []).
  { induction l as [|c l IH]; [reflexivity|]. cbn [filter].
    destruct (is_setup c) eqn:E; [discriminate|]. intros H.
    unfold is_setup in E. destruct c; try discriminate; cbn [filter is_init]; auto. }
  assert (Hpi : filter is_init pre <> []).
  { intros E. assert (In (Init t (pixels first) (roi env)) (filter is_setup pre))
      by (rewrite Hpre; cbn; tauto).
    apply filter_In in H. destruct H as [H _].
    assert (In (Init t (pixels first) (roi env)) (filter is_init pre))
      by (apply filter_In; split; [assumption | reflexivity]).
    rewrite E in H0. contradiction. }
  exists t, pre, (new ++ [Release; DestroyAllWindows; Close; Print (farewell s)])%list.
  repeat split; try assumption.
  - rewrite filter_app, (Hi _ Hnew). reflexivity.
  - rewrite filter_app, Hun. cbn [filter is_update]. now rewrite app_nil_r.
  - rewrite Hc, !filter_app, Hup, Hun. cbn [filter is_update app].
    now rewrite app_nil_r, length_map, data_rows_length.
Qed.

Lemma one_update_per_processed_frame_witness :
  exists t pre post,
    handle (ALL_py ALL.config) interrupted = Some t
    /\ calls (snd (run (ALL_py ALL.config) interrupted (boot None))) = (pre ++ post)%list
    /\ filter is_init pre <> [] /\ filter is_update pre = []
    /\ filter is_init post = []
    /\ filter is_update post
       = map (fun f => Update t (pixels f)) (processed (tl (frames interrupted)))
    /\ List.length (filter is_update (calls (snd (run (ALL_py ALL.config) interrupted (boot None)))))
       = List.length (data_rows 2 (processed (tl (frames interrupted)))).
Proof.
  exact (one_update_per_processed_frame (ALL_py ALL.config) interrupted None eq_refl).
Defined.

(** ** Early exits *)

(** X3: a run ends in [sys.exit()] exactly when the factory hands back
    the null handle, or the source does not open, or no first frame can
    be read, or the selected box has zero width or zero height, or the
    output file cannot be opened; whatever world it starts in. *)
Theorem exits_exactly_when_a_test_fails (s : Script) (env : Env) (w : World) :
  exited (run s env w) = true
  <-> (handle s env = None \/ opens env = false \/ frames env = []
       \/ b2 (roi env) = 0 \/ b3 (roi env) = 0 \/ writable env = false).
Proof.
  rewrite exited_iff_fails. unfold passes.
  destruct (handle s env) as [t|]; [|cbn; tauto].
  destruct (opens env); [|cbn; tauto].
  destruct (frames env) as [|f l]; [cbn; tauto|].
  destruct (Z.eqb_spec (b2 (roi env)) 0) as [E2|N2]; [cbn; tauto|].
  destruct (Z.eqb_spec (b3 (roi env)) 0) as [E3|N3]; [cbn; tauto|].
  destruct (writable env); cbn; [|tauto].
  split; [discriminate|].
  intros [H|[H|[H|[H|[H|H]]]]]; congruence.
Qed.

(** X4: whatever makes a run exit early, the output file is left exactly
    as it was, and the last thing the process did was to print a
    diagnostic. *)
Theorem early_exit_keeps_file_and_reports (s : Script) (env : Env) (d : option string) :
  exited (run s env (boot d)) = true ->
  disk (snd (run s env (boot d))) = d
  /\ is_print (last (calls (snd (run s env (boot d)))) Read) = true.
Proof.
  destruct s as [cfg|cfg].
  - split_run; intros; try discriminate; try (split; reflexivity); finish_run.
  - split_run; intros; try discriminate; try (split; reflexivity); finish_run.
Qed.

Lemma early_exit_keeps_file_and_reports_witness :
  disk (snd (run (KCF_py KCF.config) read_only (boot (Some "old")))) = Some "old"
  /\ is_print (last (calls (snd (run (KCF_py KCF.config) read_only (boot (Some "old"))))) Read)
     = true.
Proof.
  exact (early_exit_keeps_file_and_reports (KCF_py KCF.config) read_only (Some "old") eq_refl).
Defined.

(** X5: when [open] fails the tracker has already been initialised: the
    run exits with the ROI selected and [init] called, the capture
    handle and the window held, and the file untouched. *)
Theorem unwritable_output_exits_after_init (s : Script) (env : Env) (d : option string) :
  writable env = false ->
  existsb is_open (calls (snd (run s env (boot d)))) = true ->
  exited (run s env (boot d)) = true
  /\ existsb is_init (calls (snd (run s env (boot d)))) = true
  /\ existsb is_selectROI (calls (snd (run s env (boot d)))) = true
  /\ video_open (snd (run s env (boot d))) = true
  /\ window_open (snd (run s env (boot d))) = true
  /\ file_open (snd (run s env (boot d))) = false
  /\ disk (snd (run s env (boot d))) = d.
Proof.
  destruct s as [cfg|cfg].
  - split_run; intros; try discriminate; repeat split; reflexivity.
  - split_run; intros; try discriminate; repeat split; reflexivity.
Qed.

Lemma unwritable_output_exits_after_init_witness :
  exited (run (ALL_py ALL.config) read_only (boot None)) = true
  /\ existsb is_init (calls (snd (run (ALL_py ALL.config) read_only (boot None)))) = true
  /\ existsb is_selectROI (calls (snd (run (ALL_py ALL.config) read_only (boot None)))) = true
  /\ video_open (snd (run (ALL_py ALL.config) read_only (boot None))) = true
  /\ window_open (snd (run (ALL_py ALL.config) read_only (boot None))) = true
  /\ file_open (snd (run (ALL_py ALL.config) read_only (boot None))) = false
  /\ disk (snd (run (ALL_py ALL.config) read_only (boot None))) = None.
Proof.
  exact (unwritable_output_exits_after_init (ALL_py ALL.config) read_only None
           eq_refl eq_refl).
Defined.

(** ** Escape *)

(** X6: the key test looks at the low byte only: it fires exactly on the
    key codes congruent to 27 modulo 256, so not on [-1] (no key), and
    also on 27 with higher bits set. *)
Theorem escape_is_the_low_byte (k : Z) :
  is_esc k = true <-> k mod 256 = 27.
Proof.
  unfold is_esc. change 255 with (Z.ones 8).
  rewrite Z.land_ones by lia. change (2 ^ 8) with 256. apply Z.eqb_eq.
Qed.

Lemma processed_until_escape (pre : list Frame) (f : Frame) (post : list Frame) :
  Forall (fun g => is_esc (key g) = false) pre ->
  is_esc (key f) = true ->
  processed (pre ++ f :: post) = (pre ++ [f])%list.
Proof.
  intros Hpre Hf. induction Hpre as [|g pre Hg _ IH]; cbn [processed app].
  - now rewrite Hf.
  - now rewrite Hg, IH.
Qed.

(** X7: when escape is first down on some frame after the first, that
    frame still gets its row and its update, and it is the last: the
    file holds the rows of the frames up to and including it, and the
    frames behind it are never handed to the tracker. *)
Theorem escape_stops_after_the_current_frame (s : Script) (env : Env)
    (d : option string) (pre : list Frame) (f : Frame) (post : list Frame) :
  exited (run s env (boot d)) = false ->
  tl (frames env) = (pre ++ f :: post)%list ->
  Forall (fun g => is_esc (key g) = false) pre ->
  is_esc (key f) = true ->
  option_map lines (disk (snd (run s env (boot d))))
  = Some (preamble s ++ data_rows 2 (pre ++ [f]))%list
  /\ List.length (data_rows 2 (pre ++ [f])) = S (List.length pre)
  /\ map (fun c => match c with Update _ px => Some px | _ => None end)
         (filter is_update (calls (snd (run s env (boot d)))))
     = map (fun g => Some (pixels g)) (pre ++ [f]).
Proof.
  intros Hrun Htl Hpre Hf.
  destruct (run_completes s env d Hrun) as (Hdisk & _ & _ & _ & _ & Hh).
  destruct (completed_trace s env d Hrun)
    as (t & first & p & new & _ & _ & Hc & _ & Hup & Hun & _ & _).
  rewrite Htl, (processed_until_escape _ _ _ Hpre Hf) in *.
  split.
  { rewrite Hdisk. cbn [option_map]. f_equal. now apply lines_of_text with env. }
  split.
  { rewrite data_rows_length, length_app. cbn. lia. }
  rewrite Hc, !filter_app, Hup, Hun. cbn [filter is_update app].
  rewrite app_nil_r, map_map. reflexivity.
Qed.

Lemma escape_stops_after_the_current_frame_witness :
  option_map lines (disk (snd (run (KCF_py KCF.config) interrupted (boot None))))
  = Some [header; "2, 1, 2, 3, 4"].
Proof.
  refine (proj1 (escape_stops_after_the_current_frame (KCF_py KCF.config) interrupted
                   None [] (mkFrame 1 true (mkRect 1 2 3 4)%Q 25%Q 27)
                   [still true 2%nat] _ _ _ _)).
  - reflexivity.
  - reflexivity.
  - constructor.
  - reflexivity.
Defined.

(** ** The factories, once more *)

(** X8: the letter case of the requested name does not matter.  Two
    names with the same upper-case form get the same handle from each
    factory, in whatever world it is called; for names of ASCII
    characters that is so as soon as they differ only in the case of
    their letters, and upper-casing such a name beforehand changes
    nothing. *)
Theorem factories_ignore_case (env : Env) (a b : string) (w w' : World) :
  (str_upper env a = str_upper env b ->
   fst (ALL.create_tracker_by_name env a w) = fst (ALL.create_tracker_by_name env b w')
   /\ fst (KCF.create_tracker env a w) = fst (KCF.create_tracker env b w'))
  /\ (is_ascii a = true -> is_ascii b = true -> upper a = upper b ->
      fst (ALL.create_tracker_by_name env a w) = fst (ALL.create_tracker_by_name env b w')
      /\ fst (KCF.create_tracker env a w) = fst (KCF.create_tracker env b w'))
  /\ (is_ascii a = true ->
      fst (ALL.create_tracker_by_name env (upper a) w)
      = fst (ALL.create_tracker_by_name env a w)
      /\ fst (KCF.create_tracker env (upper a) w) = fst (KCF.create_tracker env a w)).
Proof.
  split; [|split].
  - intros H. rewrite !ALL_factory, !KCF_factory, H. now split.
  - intros Ha Hb H.
    rewrite !ALL_factory, !KCF_factory, !str_upper_ascii, H by assumption. now split.
  - intros Ha.
    assert (Hu : is_ascii (upper a) = true) by now rewrite upper_stays_ascii.
    rewrite !ALL_factory, !KCF_factory, !str_upper_ascii, upper_idem by assumption.
    now split.
Qed.

Lemma factories_ignore_case_witness :
  fst (ALL.create_tracker_by_name demo "mosse" (boot None))
  = fst (ALL.create_tracker_by_name demo "MoSSe" (boot (Some "x")))
  /\ fst (ALL.create_tracker_by_name long_s_speaker ("mo" ++ long_s ++ long_s ++ "e")
            (boot None))
     = fst (ALL.create_tracker_by_name long_s_speaker "MOSSE" (boot None)).
Proof.
  split.
  - exact (proj1 (proj1 (proj2 (factories_ignore_case demo "mosse" "MoSSe"
                                   (boot None) (boot (Some "x"))))
                    eq_refl eq_refl eq_refl)).
  - exact (proj1 (proj1 (factories_ignore_case long_s_speaker
                           ("mo" ++ long_s ++ long_s ++ "e") "MOSSE"
                           (boot None) (boot None)) eq_refl)).
Defined.

(** X9: only KCF.py knows the legacy constructor.  On an installation
    that has [cv2.legacy.TrackerKCF_create] but not [cv2.TrackerKCF_create],
    KCF.py's factory builds the legacy tracker for the name KCF while
    ALL.py's returns the null handle; and ALL.py's factory never returns
    a legacy tracker. *)
Theorem legacy_fallback_only_in_KCF (env : Env) (name : string) (w : World) :
  str_upper env name = "KCF" ->
  has_attr env TrackerKCF_create = false ->
  has_attr env legacy_TrackerKCF_create = true ->
  fst (KCF.create_tracker env name w) = Ret (Some legacy_TrackerKCF_create)
  /\ fst (ALL.create_tracker_by_name env name w) = Ret None
  /\ (forall env' name' w',
        fst (ALL.create_tracker_by_name env' name' w')
        <> Ret (Some legacy_TrackerKCF_create)).
Proof.
  intros Hn Hk Hl. rewrite KCF_factory, ALL_factory, Hn.
  unfold handle_KCF, handle_ALL. cbn [assoc table String.eqb Ascii.eqb Bool.eqb].
  rewrite Hk, Hl. repeat split.
  intros env' name' w'. rewrite ALL_factory. unfold handle_ALL, table, assoc.
  repeat match goal with
         | |- context [String.eqb ?n ?k] => destruct (String.eqb n k)
         | |- context [has_attr ?e ?c] => destruct (has_attr e c)
         end; discriminate.
Qed.

Lemma legacy_fallback_only_in_KCF_witness :
  fst (KCF.create_tracker recent "kcf" (boot None)) = Ret (Some legacy_TrackerKCF_create)
  /\ fst (ALL.create_tracker_by_name recent "kcf" (boot None)) = Ret None.
Proof.
  split.
  - exact (proj1 (legacy_fallback_only_in_KCF recent "kcf" (boot None)
                    eq_refl eq_refl eq_refl)).
  - exact (proj1 (proj2 (legacy_fallback_only_in_KCF recent "kcf" (boot None)
                           eq_refl eq_refl eq_refl))).
Defined.

(** X10: with the seven names the script lists, every [SELECTED_INDEX],
    in range or not, selects a name the factory knows, already in upper
    case; so the factory can only fail because the installed library
    lacks that name's constructor, never on the name. *)
Theorem listed_names_are_all_known (cfg : ALL.Config) :
  ALL.TRACKER_TYPES cfg = ALL.names ->
  In (selected cfg) ALL.names
  /\ (forall env, str_upper env (selected cfg) = selected cfg)
  /\ (forall env, handle_ALL env (str_upper env (selected cfg)) = None ->
        exists c, assoc (selected cfg) table = Some c /\ has_attr env c = false).
Proof.
  intros Hn.
  assert (Hin : In (selected cfg) ALL.names).
  { unfold selected. rewrite Hn.
    destruct ((0 <=? ALL.SELECTED_INDEX cfg)
              && (ALL.SELECTED_INDEX cfg <? Z.of_nat (List.length ALL.names)))%bool eqn:E.
    - apply andb_prop in E. destruct E as [E0 E1].
      apply Z.leb_le in E0. apply Z.ltb_lt in E1.
      apply nth_In. lia.
    - cbn. tauto. }
  assert (Hup : forall env, str_upper env (selected cfg) = selected cfg).
  { intros env. cbn [ALL.names In] in Hin.
    destruct Hin as [<-|[<-|[<-|[<-|[<-|[<-|[<-|[]]]]]]]]; reflexivity. }
  split; [exact Hin|]. split; [exact Hup|].
  intros env. rewrite Hup.
  destruct (enumerated_lookup env _ Hin) as (c & Hc & Hh).
  rewrite Hh. destruct (has_attr env c) eqn:E; [discriminate|].
  intros _. now exists c.
Qed.

Lemma listed_names_are_all_known_witness :
  In (selected (with_index (-3) ALL.config)) ALL.names
  /\ str_upper bare (selected (with_index (-3) ALL.config))
     = selected (with_index (-3) ALL.config).
Proof.
  split.
  - exact (proj1 (listed_names_are_all_known (with_index (-3) ALL.config) eq_refl)).
  - exact (proj1 (proj2 (listed_names_are_all_known (with_index (-3) ALL.config) eq_refl))
             bare).
Defined.

(** ** The text of a data row *)

Lemma fields_plain (a : string) : mem_ascii "," a = false -> fields a = [a].
Proof.
  induction a as [|c a IH]; intros H; [reflexivity|].
  cbn [fields mem_ascii] in *.
  apply orb_false_elim in H. destruct H as [Hc Ha].
  now rewrite Hc, (IH Ha).
Qed.

Lemma fields_sep (a r : string) :
  mem_ascii "," a = false ->
  fields (a ++ ", " ++ r)
  = a :: match fields r with
         | [] => [" "]
         | x :: xs => (" " ++ x) :: xs
         end.
Proof.
  induction a as [|c a IH]; intros H; [reflexivity|].
  cbn [fields append mem_ascii] in *.
  apply orb_false_elim in H. destruct H as [Hc Ha].
  now rewrite Hc, (IH Ha).
Qed.

Lemma to_int_proper (n : Z) :
  Z.to_int n <> Decimal.Pos Decimal.Nil /\ Z.to_int n <> Decimal.Neg Decimal.Nil.
Proof.
  destruct n as [|p|p]; cbn; split; try discriminate; intros [= E];
    now apply DecimalPos.Unsigned.to_uint_nonnil in E.
Qed.

Lemma str_inj (a b : Z) : str a = str b -> a = b.
Proof.
  unfold str. intros H. apply DecimalZ.to_int_inj.
  assert (E : forall n,
             NilZero.int_of_string (NilZero.string_of_int (Z.to_int n))
             = Some (Z.to_int n)).
  { intros n. destruct (to_int_proper n). now apply NilZero.isi. }
  pose proof (E a) as Ea. rewrite H, E in Ea. now injection Ea.
Qed.

Lemma space_inj (a b : string) : " " ++ a = " " ++ b -> a = b.
Proof. intros [= H]. exact H. Qed.

Lemma row_fields (i x y w h : Z) :
  fields (row i x y w h)
  = [str i; " " ++ str x; " " ++ str y; " " ++ str w; " " ++ str h].
Proof.
  unfold row.
  rewrite !fields_sep by apply str_no_comma.
  now rewrite fields_plain by apply str_no_comma.
Qed.

(** X11: a data row splits at its commas into exactly five fields, the
    numerals of the frame index and of the four box numbers (each of the
    latter after one blank), and it can be read back without ambiguity:
    two rows are the same text only for the same index and the same
    numbers.  The failure row is the row of four [-1]. *)
Theorem row_has_five_fields_and_reads_back (i x y w h : Z) :
  fields (row i x y w h)
  = [str i; " " ++ str x; " " ++ str y; " " ++ str w; " " ++ str h]
  /\ (forall i' x' y' w' h',
        row i x y w h = row i' x' y' w' h' ->
        i = i' /\ x = x' /\ y = y' /\ w = w' /\ h = h')
  /\ (forall f, List.length (fields (data_row i f)) = 5%nat)
  /\ fields (sentinel i) = [str i; " -1"; " -1"; " -1"; " -1"].
Proof.
  split; [apply row_fields|].
  split.
  { intros i' x' y' w' h' H. apply (f_equal fields) in H.
    rewrite !row_fields in H. injection H as Hi Hx Hy Hw Hh.
    repeat split; apply str_inj; try assumption; now apply space_inj. }
  split.
  { intros f. unfold data_row. destruct (update_ok f); now rewrite row_fields. }
  rewrite sentinel_row. apply row_fields.
Qed.

(** X12: the file cannot tell a failure from a success whose box
    truncates to four [-1]: an iteration on such a frame leaves the same
    file as an iteration on a failed frame with the same key, in both
    scripts. *)
Theorem success_at_minus_one_reads_as_failure (f g : Frame) (rest : list Frame)
    (fid : Z) (w : World) :
  update_ok f = true ->
  py_int (b0 (update_box f)) = -1 -> py_int (b1 (update_box f)) = -1 ->
  py_int (b2 (update_box f)) = -1 -> py_int (b3 (update_box f)) = -1 ->
  update_ok g = false ->
  key g = key f ->
  (forall cfg t,
      disk (snd (KCF.loop cfg t fid (f :: rest) w))
      = disk (snd (KCF.loop cfg t fid (g :: rest) w)))
  /\ (forall name t,
      disk (snd (ALL.loop name t fid (f :: rest) w))
      = disk (snd (ALL.loop name t fid (g :: rest) w)))
  /\ data_row (fid + 1) f = sentinel (fid + 1).
Proof.
  intros Hf H0 H1 H2 H3 Hg Hk.
  assert (Hrow : data_row (fid + 1) f = data_row (fid + 1) g).
  { unfold data_row. now rewrite Hf, Hg, H0, H1, H2, H3. }
  assert (Hrows : data_rows (fid + 1) (processed (f :: rest))
                  = data_rows (fid + 1) (processed (g :: rest))).
  { cbn [processed data_rows]. now rewrite Hrow, Hk. }
  split; [|split].
  - intros cfg t.
    destruct (KCF_loop_post cfg t (f :: rest) fid w) as (_ & Ef & _).
    destruct (KCF_loop_post cfg t (g :: rest) fid w) as (_ & Eg & _).
    now rewrite Ef, Eg, Hrows.
  - intros name t.
    destruct (ALL_loop_post name t (f :: rest) fid w) as (_ & Ef & _).
    destruct (ALL_loop_post name t (g :: rest) fid w) as (_ & Eg & _).
    now rewrite Ef, Eg, Hrows.
  - rewrite Hrow. unfold data_row. now rewrite Hg.
Qed.

Lemma success_at_minus_one_reads_as_failure_witness :
  data_row (1 + 1) (mkFrame 1 true (mkRect (-3 # 2) (-1 # 1) (-1 # 1) (-7 # 4))%Q 30%Q (-1))
  = sentinel (1 + 1).
Proof.
  exact (proj2 (proj2 (success_at_minus_one_reads_as_failure
            (mkFrame 1 true (mkRect (-3 # 2) (-1 # 1) (-1 # 1) (-7 # 4))%Q 30%Q (-1))
            (still false 1%nat) [] 1 (boot (Some ""))
            eq_refl eq_refl eq_refl eq_refl eq_refl eq_refl eq_refl))).
Defined.

(** ** The video source *)

Lemma all_digits_uint (u : Decimal.uint) :
  all_digits (NilEmpty.string_of_uint u) = true.
Proof. induction u; cbn [NilEmpty.string_of_uint all_digits]; auto. Qed.

Lemma int_of_digits_uint (u : Decimal.uint) :
  forall acc,
    int_of_digits acc (NilEmpty.string_of_uint u)
    = Z.of_N (DecimalPos.Unsigned.of_lu (Decimal.rev u))
      + acc * 10 ^ Z.of_N (DecimalPos.Unsigned.usize u).
Proof.
  induction u; intros acc;
    cbn [NilEmpty.string_of_uint int_of_digits DecimalPos.Unsigned.usize];
    [ cbn; lia | .. ];
    rewrite IHu;
    match goal with
    | |- context [Decimal.rev (?D u)] =>
        change (Decimal.rev (D u)) with (Decimal.revapp u (D Decimal.Nil));
        rewrite (DecimalPos.Unsigned.of_lu_revapp u (D Decimal.Nil));
        let v := eval vm_compute in (DecimalPos.Unsigned.of_lu (D Decimal.Nil)) in
        change (DecimalPos.Unsigned.of_lu (D Decimal.Nil)) with v
    end;
    match goal with
    | |- context [Z.of_nat (nat_of_ascii ?c)] =>
        let v := eval vm_compute in (Z.of_nat (nat_of_ascii c)) in
        change (Z.of_nat (nat_of_ascii c)) with v
    end;
    rewrite N2Z.inj_add, N2Z.inj_mul, N2Z.inj_pow, N2Z.inj_succ, Z.pow_succ_r
      by apply N2Z.is_nonneg;
    cbn [Z.of_N]; ring.
Qed.

Lemma str_pos (p : positive) :
  str (Zpos p) = NilEmpty.string_of_uint (Pos.to_uint p).
Proof.
  unfold str. cbn [Z.to_int NilZero.string_of_int NilZero.string_of_uint].
  pose proof (DecimalPos.Unsigned.to_uint_nonnil p) as H.
  destruct (Pos.to_uint p); [now elim H | reflexivity ..].
Qed.

(** X13: a [VIDEO_PATH] that is the decimal numeral of [n >= 0] opens
    camera [n]; the numeral of a negative number is not all digits and
    is taken as a file name. *)
Theorem numeral_path_is_a_camera (n : Z) :
  (0 <= n -> video_source (str n) = Camera n)
  /\ (n < 0 -> video_source (str n) = File (str n)).
Proof.
  split; intros Hn.
  - destruct n as [|p|p]; [reflexivity | | lia].
    unfold video_source. rewrite str_pos.
    assert (Hd : isdigit (NilEmpty.string_of_uint (Pos.to_uint p)) = true).
    { pose proof (DecimalPos.Unsigned.to_uint_nonnil p) as H.
      pose proof (all_digits_uint (Pos.to_uint p)) as A.
      destruct (Pos.to_uint p); [now elim H | exact A ..]. }
    rewrite Hd, int_of_digits_uint. f_equal.
    rewrite <- DecimalPos.Unsigned.of_uint_alt, DecimalPos.Unsigned.of_to.
    cbn. lia.
  - destruct n as [|p|p]; [lia | lia |]. reflexivity.
Qed.

Lemma numeral_path_is_a_camera_witness :
  video_source (str 12) = Camera 12 /\ video_source (str (-1)) = File (str (-1)).
Proof.
  split.
  - apply (proj1 (numeral_path_is_a_camera 12)). lia.
  - apply (proj2 (numeral_path_is_a_camera (-1))). lia.
Defined.

(** ** What the loops draw *)

Lemma loop_draws_step (window : string) (f : Frame) (rest : list Frame)
    (w w1 : World) (r : Outcome unit * World) (it : list Call) :
  calls w1 = (calls w ++ it)%list ->
  map corner (filter is_rectangle it)
  = (if update_ok f
     then [Some (py_int (b0 (update_box f)), py_int (b1 (update_box f)))]
     else []) ->
  filter is_imshow it = [ImShow window (pixels f)] ->
  loop_draws window (if is_esc (key f) then [] else rest) w1 r ->
  loop_draws window (f :: rest) w r.
Proof.
  intros Hc Hr Hi (new & Hn & Hr' & Hi').
  exists (it ++ new)%list.
  rewrite Hn, Hc, <- app_assoc, !filter_app, map_app, Hr, Hi, Hr', Hi'.
  cbn [processed filter map app].
  destruct (update_ok f), (is_esc (key f)); repeat split.
Qed.

Lemma loop_draws_done (window : string) (w w1 : World) (last : list Call) :
  calls w1 = (calls w ++ last)%list ->
  filter is_rectangle last = [] -> filter is_imshow last = [] ->
  loop_draws window [] w (Ret tt, w1).
Proof.
  intros Hc Hr Hi. exists last. cbn [snd processed filter map].
  now rewrite Hr, Hi.
Qed.

Ltac draws_iteration f IH :=
  cbv beta iota zeta delta
    [bind call f_write cv2_imshow cv2_waitKey ret print tracker_update
     log set_disk set_window disk video_open window_open file_open calls];
  let Hok := fresh "Hok" in
  destruct (update_ok f) eqn:Hok;
  match goal with
  | |- loop_draws _ _ _ ((if is_esc ?k then _ else _) ?W) =>
      eapply (loop_draws_step _ _ _ _ W);
      [ cbn [calls]; rewrite <- !app_assoc; cbn [app]; reflexivity
      | rewrite ?Hok; reflexivity
      | reflexivity
      | ];
      destruct (is_esc k);
      [ eapply loop_draws_done;
        [ cbn [calls];
          first [ rewrite <- (app_nil_r (A := Call)) at 1; reflexivity | reflexivity ]
        | reflexivity | reflexivity ]
      | apply IH ]
  end.

Lemma KCF_loop_draws (cfg : KCF.Config) (t : Tracker) (pending : list Frame) :
  forall fid w, loop_draws KCF.window pending w (KCF.loop cfg t fid pending w).
Proof.
  induction pending as [|f rest IH]; intros fid [d v wi fo cs].
  - now apply loop_draws_done with [Read].
  - cbn [KCF.loop]. draws_iteration f IH.
Qed.

Lemma ALL_loop_draws (name : string) (t : Tracker) (pending : list Frame) :
  forall fid w, loop_draws ALL.window pending w (ALL.loop name t fid pending w).
Proof.
  induction pending as [|f rest IH]; intros fid [d v wi fo cs].
  - now apply loop_draws_done with [Read].
  - cbn [ALL.loop]. draws_iteration f IH.
Qed.

(** X14: in either loop, whatever world it starts in, a rectangle is
    drawn on exactly the frames it gets through on which [update]
    succeeded, cornered at the position written to the file, and every
    frame it gets through is shown once, in order, in the script's
    window; a failed frame is shown without a rectangle. *)
Theorem loop_draws_on_success_only (pending : list Frame) (fid : Z) (w : World) :
  (forall cfg t, loop_draws KCF.window pending w (KCF.loop cfg t fid pending w))
  /\ (forall name t, loop_draws ALL.window pending w (ALL.loop name t fid pending w))
  /\ (Forall (fun f => update_ok f = false) pending ->
      forall cfg name t,
        exists nk na,
          calls (snd (KCF.loop cfg t fid pending w)) = (calls w ++ nk)%list
          /\ filter is_rectangle nk = []
          /\ calls (snd (ALL.loop name t fid pending w)) = (calls w ++ na)%list
          /\ filter is_rectangle na = []).
Proof.
  split; [intros; apply KCF_loop_draws|].
  split; [intros; apply ALL_loop_draws|].
  intros Hfail cfg name t.
  assert (Hnone : filter update_ok (processed pending) = []).
  { induction Hfail as [|f l Hf _ IH]; cbn [processed filter]; [reflexivity|].
    rewrite Hf. destruct (is_esc (key f)); [reflexivity | exact IH]. }
  destruct (KCF_loop_draws cfg t pending fid w) as (nk & Hk & Rk & _).
  destruct (ALL_loop_draws name t pending fid w) as (na & Ha & Ra & _).
  rewrite Hnone in Rk, Ra. cbn [map] in Rk, Ra.
  apply map_eq_nil in Rk. apply map_eq_nil in Ra.
  exists nk, na. repeat split; assumption.
Qed.

Lemma loop_draws_on_success_only_witness :
  loop_draws KCF.window (tl (frames demo)) (boot (Some ""))
    (KCF.loop KCF.config TrackerKCF_create 1 (tl (frames demo)) (boot (Some ""))).
Proof.
  exact (proj1 (loop_draws_on_success_only (tl (frames demo)) 1 (boot (Some "")))
           KCF.config TrackerKCF_create).
Defined.
